(** * week01/docker-sql/pipeline/pipeline.py

    A shallow embedding of the pipeline script and of the parts of the
    Python runtime and of pandas that the script calls, followed by the
    properties of the script.

    Conventions of the model.
    - A Python [str] is a Rocq [string]; a character stands for the code
      point of the same number (0..255).
    - A Python [int] is a [Z]: Python integers are unbounded; the limit of
      4300 digits is on their conversion from and to text.
    - A data frame holds integer columns, whose type follows from their
      values; a parquet file is represented by the frame stored in it, the
      byte layout being the parquet library's, which stores integers in
      64 bits.
    - The script is the list of its statements, run in order; an unhandled
      exception stops the run and keeps the effects made so far. *)

From Stdlib Require Import ZArith String Ascii List Lia.
From stdpp Require Import base option list gmap strings.

Local Open Scope string_scope.
Local Open Scope list_scope.
Local Open Scope Z_scope.

(** ** Python strings and integers *)

Module Py.

(** [ord(c)] *)
Definition ord (c : ascii) : Z := Z.of_N (N_of_ascii c).

(** [chr(n)], for [0 <= n < 256] *)
Definition chr (n : Z) : ascii := ascii_of_N (Z.to_N n).

Definition squote : ascii := chr 39.
Definition dquote : ascii := chr 34.
Definition backslash : ascii := chr 92.
Definition newline : ascii := chr 10.

(** *** The decimal text of an integer and [str(n)]

    The text is canonical, with ["-"] for negatives.  [str(n)], and the
    formatting of [n] in an f-string, give this text when it has at most
    [max_str_digits] digits and raise [ValueError] otherwise. *)

(** The default of [sys.get_int_max_str_digits()]. *)
Definition max_str_digits : nat := 4300.

Definition digit_char (d : Z) : ascii := chr (48 + d).

(** Decimal digits of a natural number, most significant first, in front
    of [acc].  [fuel] bounds the number of divisions by ten. *)
Fixpoint digits_of (fuel : nat) (n : Z) (acc : string) : string :=
  let acc' := String (digit_char (n mod 10)) acc in
  match fuel with
  | O => acc'
  | S f => if n <? 10 then acc' else digits_of f (n / 10) acc'
  end.

Definition str_nonneg (n : Z) : string :=
  digits_of (Z.to_nat (Z.log2 n)) n "".

Definition decimal (n : Z) : string :=
  if n <? 0 then String "-" (str_nonneg (- n)) else str_nonneg n.

(** The number of digits of the decimal text, the sign not counted. *)
Definition decimal_digits (n : Z) : nat := String.length (str_nonneg (Z.abs n)).

(** [str(n)]; [None] stands for the [ValueError]. *)
Definition str (n : Z) : option string :=
  if (max_str_digits <? decimal_digits n)%nat then None else Some (decimal n).

(** *** [int(s)] for a string, base 10

    Leading white space is skipped, then an optional sign, then decimal
    digits in which single underscores may separate digits, then trailing
    white space up to the end of the string.  The digits are counted, and
    more than [max_str_digits] of them are refused.  Anything else is a
    [ValueError] too, here [None]. *)

(** White space for [int]: tab, line feed, vertical tab, form feed,
    carriage return, space; and, outside ASCII, U+0085 and U+00A0. *)
Definition is_space (c : ascii) : bool :=
  let n := ord c in
  (9 <=? n) && (n <=? 13) || (n =? 32) || (n =? 133) || (n =? 160).

Definition digit_value (c : ascii) : option Z :=
  let n := ord c in
  if (48 <=? n) && (n <=? 57) then Some (n - 48) else None.

Fixpoint lstrip (s : string) : string :=
  match s with
  | String c s' => if is_space c then lstrip s' else s
  | EmptyString => EmptyString
  end.

(** Every character of [s] is white space for [int]. *)
Fixpoint all_space (s : string) : bool :=
  match s with
  | String c s' => is_space c && all_space s'
  | EmptyString => true
  end.

(** What the digit scanner saw last. *)
Inductive prev := PStart | PDigit | PUnderscore.

(** The scanner stops at the first character that is neither a digit nor
    an underscore, and fails when no digit was read, when an underscore
    does not follow a digit, or when the last character read is an
    underscore. *)
Fixpoint scan_digits (s : string) (p : prev) (acc : Z) : option (Z * string) :=
  let finish := match p with PDigit => Some (acc, s) | _ => None end in
  match s with
  | String c s' =>
      match digit_value c with
      | Some d => scan_digits s' PDigit (10 * acc + d)
      | None =>
          if Ascii.eqb c "_"
          then match p with
               | PDigit => scan_digits s' PUnderscore acc
               | _ => None
               end
          else finish
      end
  | EmptyString => finish
  end.

(** The number of digits the scanner reads: those of the leading run of
    digits and underscores, leading zeros included. *)
Fixpoint count_digits (s : string) : nat :=
  match s with
  | String c s' =>
      match digit_value c with
      | Some _ => S (count_digits s')
      | None => if Ascii.eqb c "_" then count_digits s' else O
      end
  | EmptyString => O
  end.

(** The sign in front of the digits, and the text after it. *)
Definition split_sign (s : string) : Z * string :=
  match s with
  | String "+" r => (1, r)
  | String "-" r => (-1, r)
  | _ => (1, s)
  end.

(** The conversion proper, which knows no limit of digits. *)
Definition convert (s : string) : option Z :=
  let '(sign, s2) := split_sign (lstrip s) in
  match scan_digits s2 PStart 0 with
  | Some (v, rest) =>
      match lstrip rest with
      | EmptyString => Some (sign * v)
      | _ => None
      end
  | None => None
  end.

(** The number of digits of the text given to [int]. *)
Definition digit_count (s : string) : nat :=
  count_digits (split_sign (lstrip s)).2.

Definition int (s : string) : option Z :=
  if (max_str_digits <? digit_count s)%nat then None else convert s.

(** *** [repr] of a string and of a list of strings *)

Definition hex_digit (n : Z) : ascii :=
  if n <? 10 then chr (48 + n) else chr (87 + n).

Definition printable (c : ascii) : bool :=
  let n := ord c in
  negb ((n <? 32) || (127 <=? n) && (n <=? 160) || (n =? 173)).

Fixpoint contains (c : ascii) (s : string) : bool :=
  match s with
  | String c' s' => Ascii.eqb c c' || contains c s'
  | EmptyString => false
  end.

Definition repr_char (quote c : ascii) : string :=
  if Ascii.eqb c quote || Ascii.eqb c backslash then String backslash (String c "")
  else if ord c =? 9 then String backslash "t"
  else if ord c =? 10 then String backslash "n"
  else if ord c =? 13 then String backslash "r"
  else if printable c then String c ""
  else String backslash
         (String "x" (String (hex_digit (ord c / 16)) (String (hex_digit (ord c mod 16)) ""))).

Fixpoint repr_body (quote : ascii) (s : string) : string :=
  match s with
  | String c s' => repr_char quote c +:+ repr_body quote s'
  | EmptyString => EmptyString
  end.

Definition repr_str (s : string) : string :=
  let quote := if contains squote s && negb (contains dquote s) then dquote else squote in
  String quote (repr_body quote s +:+ String quote "").

Fixpoint join (sep : string) (l : list string) : string :=
  match l with
  | [] => ""
  | [x] => x
  | x :: l' => x +:+ sep +:+ join sep l'
  end.

Definition repr_list (l : list string) : string :=
  "[" +:+ join ", " (map repr_str l) +:+ "]".

End Py.

(** ** Exceptions *)

(** The exceptions the script can end with. *)
Inductive exn := IndexError | ValueError | NameError | OverflowError | OSError.

Inductive result (A : Type) :=
| Ok (a : A)
| Raise (x : exn).
Arguments Ok {A} a.
Arguments Raise {A} x.

(** Sequencing: an exception skips what follows. *)
#[global] Instance result_bind : MBind result := fun A B k r =>
  match r with
  | Ok a => k a
  | Raise x => Raise x
  end.

(** A [None] of the runtime becomes the exception [x]. *)
Definition or_raise {A} (x : exn) (o : option A) : result A :=
  match o with
  | Some a => Ok a
  | None => Raise x
  end.

(** ** pandas *)

Module Pd.

(** A frame with the default index [0 .. nrows-1] and named integer
    columns in insertion order. *)
Record DataFrame := {
  nrows : nat;
  columns : list (string * list Z)
}.

(** [pd.DataFrame({name: list, ...})]: the lists must have one length. *)
Definition of_dict (d : list (string * list Z)) : result DataFrame :=
  let n := match d with [] => O | c :: _ => length c.2 end in
  if forallb (fun c => Nat.eqb (length c.2) n) d
  then Ok {| nrows := n; columns := d |}
  else Raise ValueError.

(** Assigning a column: an existing name keeps its place, a new name is
    appended after the others. *)
Fixpoint set_column (k : string) (v : list Z) (cs : list (string * list Z))
  : list (string * list Z) :=
  match cs with
  | [] => [(k, v)]
  | c :: cs' => if String.eqb k c.1 then (k, v) :: cs' else c :: set_column k v cs'
  end.

(** [df[k] = x] for a scalar [x]: the value is broadcast to every row. *)
Definition setitem (d : DataFrame) (k : string) (x : Z) : DataFrame :=
  {| nrows := nrows d; columns := set_column k (replicate (nrows d) x) (columns d) |}.

(** [df.head(n)] *)
Definition head (n : nat) (d : DataFrame) : DataFrame :=
  {| nrows := Nat.min n (nrows d);
     columns := map (fun c => (c.1, take n c.2)) (columns d) |}.

(** [df[k]] *)
Definition column (d : DataFrame) (k : string) : option (list Z) :=
  snd <$> find (fun c => String.eqb k c.1) (columns d).

(** The rows of a frame, each in column order. *)
Definition rows (d : DataFrame) : list (list Z) :=
  map (fun i => map (fun c => nth i c.2 0) (columns d)) (seq 0 (nrows d)).

(** Every column has as many values as the frame has rows. *)
Definition aligned (d : DataFrame) : Prop :=
  Forall (fun c => length c.2 = nrows d) (columns d).

(** *** The type of a column

    A column of integers is stored as signed 64-bit integers when all its
    values fit, as unsigned 64-bit integers when they are all
    non-negative and fit, and as Python objects otherwise. *)

Inductive dtype := Int64 | UInt64 | Object.

Definition in_int64 (x : Z) : bool := (- 2 ^ 63 <=? x) && (x <? 2 ^ 63).
Definition in_uint64 (x : Z) : bool := (0 <=? x) && (x <? 2 ^ 64).

Definition dtype_of (v : list Z) : dtype :=
  if forallb in_int64 v then Int64
  else if forallb in_uint64 v then UInt64
  else Object.

Definition numeric (t : dtype) : bool :=
  match t with
  | Int64 | UInt64 => true
  | Object => false
  end.

(** *** The text of a frame, as [print] shows it

    For frames of at most 60 rows and 20 columns whose lines fit in 80
    characters, as are the frames this script prints.  A frame without
    rows or without columns is announced as empty.  Otherwise there is one
    header line and one line per row; the index labels come first, padded
    on the right, and each column follows after one space, padded on the
    left to the width of its widest text.  A numeric column has a space in
    front of its name and in the place of the sign of its values that are
    not negative; a column of objects has a space in front of each value,
    and values longer than [max_colwidth] are cut. *)

Fixpoint spaces (n : nat) : string :=
  match n with
  | O => ""
  | S n' => String " " (spaces n')
  end.

Definition ljust (w : nat) (s : string) : string :=
  s +:+ spaces (w - String.length s).

Definition rjust (w : nat) (s : string) : string :=
  spaces (w - String.length s) +:+ s.

Definition width (cells : list string) : nat :=
  foldr Nat.max O (map String.length cells).

(** The default of [display.max_colwidth]. *)
Definition max_colwidth : nat := 50.

Definition truncate (s : string) : string :=
  if (max_colwidth <? String.length s)%nat
  then substring 0 (max_colwidth - 3) s +:+ "..."
  else s.

Definition index_labels (d : DataFrame) : list string :=
  map (fun i => Py.decimal (Z.of_nat i)) (seq 0 (nrows d)).

(** The text of a column name and of a value, before padding. *)
Definition header_text (c : string * list Z) : string :=
  if numeric (dtype_of c.2) then " " +:+ c.1 else c.1.

(** An integer with a space in the place of the sign when it is not
    negative. *)
Definition int_text (x : Z) : string :=
  if x <? 0 then Py.decimal x else " " +:+ Py.decimal x.

Definition cell_text (c : string * list Z) (x : Z) : string :=
  match dtype_of c.2 with
  | Object => truncate (" " +:+ Py.decimal x)
  | _ => int_text x
  end.

(** The width the values of a column are padded to, and the width of the
    column, which a name longer than [max_colwidth] makes larger. *)
Definition values_width (c : string * list Z) : nat :=
  Nat.min max_colwidth (width (header_text c :: map (cell_text c) c.2)).

Definition column_width (c : string * list Z) : nat :=
  width (header_text c :: map (cell_text c) c.2).

Definition line (d : DataFrame) (label : string) (cell : string * list Z -> string)
  : string :=
  ljust (width (index_labels d)) label
  +:+ Py.join "" (map (fun c => " " +:+ cell c) (columns d)).

Definition empty_text (d : DataFrame) : string :=
  "Empty DataFrame" +:+ String Py.newline
    ("Columns: [" +:+ Py.join ", " (map fst (columns d)) +:+ "]" +:+ String Py.newline
       ("Index: [" +:+ Py.join ", " (index_labels d) +:+ "]")).

Definition to_string (d : DataFrame) : string :=
  match nrows d, columns d with
  | O, _ | _, [] => empty_text d
  | _, _ =>
      Py.join (String Py.newline "")
        (line d "" (fun c => rjust (column_width c) (header_text c))
         :: map (fun i =>
                   line d (Py.decimal (Z.of_nat i))
                     (fun c => ljust (column_width c)
                                 (rjust (values_width c) (cell_text c (nth i c.2 0)))))
                (seq 0 (nrows d)))
  end.

(** *** Writing a frame

    The parquet writer stores integers in 64 bits, signed or unsigned; a
    value that fits neither is refused with [OverflowError]. *)
Definition storable (d : DataFrame) : bool :=
  forallb (fun c : string * list Z => forallb (fun x => in_int64 x || in_uint64 x) c.2)
    (columns d).

End Pd.

(** ** The script *)

(** What the process can observe of its surroundings: its argument list
    and whether a path can be written. *)
Record env := {
  argv : list string;
  writable : string -> bool
}.

(** The effects of a run, in the order they happen. *)
Inductive event :=
| Printed (text : string)
| Written (path : string) (content : Pd.DataFrame).

(** The process state: the effects so far, the files of the working
    directory, and the two variables of the script. *)
Record state := {
  trace : list event;
  files : gmap string Pd.DataFrame;
  month : option Z;
  df : option Pd.DataFrame
}.

Definition init (fs : gmap string Pd.DataFrame) : state :=
  {| trace := []; files := fs; month := None; df := None |}.

(** The texts written to standard output, one per [print] call. *)
Definition stdout (st : state) : list string :=
  omap (fun ev => match ev with Printed s => Some s | Written _ _ => None end) (trace st).

Definition print (s : string) (st : state) : state :=
  {| trace := trace st ++ [Printed s]; files := files st;
     month := month st; df := df st |}.

(** [d.to_parquet(path)]: the frame is converted first, with an
    [OverflowError] when a value cannot be stored; then the file is opened,
    with an [OSError] when the path cannot be written; otherwise the file
    is created or replaced. *)
Definition to_parquet (e : env) (d : Pd.DataFrame) (path : string) (st : state)
  : result state :=
  if negb (Pd.storable d) then Raise OverflowError
  else if writable e path
  then Ok {| trace := trace st ++ [Written path d];
             files := <[path := d]> (files st);
             month := month st; df := df st |}
  else Raise OSError.

(** The texts of f"output_{month}.parquet" and f"hello month={month}" for
    a month that can be formatted. *)
Definition output_path (m : Z) : string := "output_" +:+ Py.decimal m +:+ ".parquet".
Definition hello (m : Z) : string := "hello month=" +:+ Py.decimal m.

(** print('args', sys.argv): the two arguments separated by a space. *)
Definition args_line (a : list string) : string := "args" +:+ " " +:+ Py.repr_list a.

Definition stmt := env -> state -> result state.

(** Line 4: [sys.argv] *)
Definition stmt_argv : stmt := fun e st => Ok st.

(** Line 5: [print('args', sys.argv)] *)
Definition stmt_print_args : stmt := fun e st => Ok (print (args_line (argv e)) st).

(** Line 7: [month = int(sys.argv[1])] *)
Definition stmt_month : stmt := fun e st =>
  a ← or_raise IndexError (argv e !! 1%nat);
  m ← or_raise ValueError (Py.int a);
  Ok {| trace := trace st; files := files st; month := Some m; df := df st |}.

(** Line 9: [df = pd.DataFrame({"day": [1, 2], "num_passengers": [3, 4]})] *)
Definition stmt_df : stmt := fun e st =>
  d ← Pd.of_dict [("day", [1; 2]); ("num_passengers", [3; 4])];
  Ok {| trace := trace st; files := files st; month := month st; df := Some d |}.

(** Line 10: [df['month'] = month] *)
Definition stmt_setitem : stmt := fun e st =>
  d ← or_raise NameError (df st);
  m ← or_raise NameError (month st);
  Ok {| trace := trace st; files := files st; month := month st;
        df := Some (Pd.setitem d "month" m) |}.

(** Line 11: [print(df.head())] *)
Definition stmt_print_head : stmt := fun e st =>
  d ← or_raise NameError (df st);
  Ok (print (Pd.to_string (Pd.head 5 d)) st).

(** Line 13: [df.to_parquet(f"output_{month}.parquet")] *)
Definition stmt_to_parquet : stmt := fun e st =>
  d ← or_raise NameError (df st);
  m ← or_raise NameError (month st);
  t ← or_raise ValueError (Py.str m);
  to_parquet e d ("output_" +:+ t +:+ ".parquet") st.

(** Line 15: [print(f"hello month={month}")] *)
Definition stmt_print_hello : stmt := fun e st =>
  m ← or_raise NameError (month st);
  t ← or_raise ValueError (Py.str m);
  Ok (print ("hello month=" +:+ t) st).

Definition program : list stmt :=
  [stmt_argv; stmt_print_args; stmt_month; stmt_df; stmt_setitem;
   stmt_print_head; stmt_to_parquet; stmt_print_hello].

(** Statements run in order; the first exception ends the run, with the
    state reached before the statement that raised it. *)
Fixpoint exec (p : list stmt) (e : env) (st : state) : option exn * state :=
  match p with
  | [] => (None, st)
  | s :: p' =>
      match s e st with
      | Ok st' => exec p' e st'
      | Raise x => (Some x, st)
      end
  end.

(** A run of the script in a working directory holding [fs]. *)
Definition run (e : env) (fs : gmap string Pd.DataFrame) : option exn * state :=
  exec program e (init fs).

(** The run cut after its first [k] statements. *)
Definition run_upto (k : nat) (e : env) (fs : gmap string Pd.DataFrame)
  : option exn * state :=
  exec (take k program) e (init fs).

(** The exit status of the process. *)
Definition exit_code (o : option exn) : Z :=
  match o with
  | None => 0
  | Some _ => 1
  end.

(** The table as line 9 builds it, before the month is added. *)
Definition base_table : Pd.DataFrame :=
  {| Pd.nrows := 2;
     Pd.columns := [("day", [1; 2]); ("num_passengers", [3; 4])] |}.

(** The table the script builds for month [m]. *)
Definition table (m : Z) : Pd.DataFrame :=
  {| Pd.nrows := 2;
     Pd.columns := [("day", [1; 2]); ("num_passengers", [3; 4]); ("month", [m; m])] |}.

(** The state when the argument is rejected: only the echo was printed. *)
Definition echoed (e : env) (fs : gmap string Pd.DataFrame) : state :=
  {| trace := [Printed (args_line (argv e))]; files := fs; month := None; df := None |}.

(** The state when the table was printed but could not be written. *)
Definition previewed (e : env) (fs : gmap string Pd.DataFrame) (m : Z) : state :=
  {| trace := [Printed (args_line (argv e)); Printed (Pd.to_string (table m))];
     files := fs; month := Some m; df := Some (table m) |}.

(** The state at the end of a run without exception. *)
Definition finished (e : env) (fs : gmap string Pd.DataFrame) (m : Z) : state :=
  {| trace := [Printed (args_line (argv e)); Printed (Pd.to_string (table m));
               Written (output_path m) (table m); Printed (hello m)];
     files := <[output_path m := table m]> fs;
     month := Some m; df := Some (table m) |}.

(** The table has two rows, and each of its columns two values. *)
Definition two_rows (d : Pd.DataFrame) : Prop :=
  Pd.nrows d = 2%nat /\ Forall (fun c => length c.2 = 2%nat) (Pd.columns d).

(** The value of [df] after each of the first [n] cuts of the run. *)
Definition df_history (n : nat) (e : env) (fs : gmap string Pd.DataFrame)
  : list (option Pd.DataFrame) :=
  map (fun k => df (run_upto k e fs).2) (seq 0 n).

(** Concrete surroundings used in the examples: month 7 in a directory
    that can or cannot be written, a text that is no integer, and no
    argument at all. *)
Definition argv_seven : list string := ["pipeline.py"; "7"].
Definition env_seven : env := {| argv := argv_seven; writable := fun _ => true |}.
Definition env_readonly : env := {| argv := argv_seven; writable := fun _ => false |}.
Definition env_abc : env := {| argv := ["pipeline.py"; "abc"]; writable := fun _ => true |}.
Definition env_noarg : env := {| argv := ["pipeline.py"]; writable := fun _ => true |}.

(** A statement only adds to the trace. *)
Definition extends_trace (s : stmt) : Prop :=
  forall e st st', s e st = Ok st' -> trace st `prefix_of` trace st'.

(** A statement keeps the property [I] of states. *)
Definition preserves (I : state -> Prop) (s : stmt) : Prop :=
  forall e st st', I st -> s e st = Ok st' -> I st'.

(** The table in [df] and every table written so far have two rows and
    columns of two values. *)
Definition tables_two_rows (st : state) : Prop :=
  (forall d, df st = Some d -> two_rows d) /\
  (forall p d, Written p d ∈ trace st -> two_rows d).

(** The text printed for the table of month [m] when [m] fits 64 bits:
    the header and the two rows, the month column as wide as its widest
    text. *)
Definition table_text (m : Z) : string :=
  let w := Nat.max 6 (String.length (Pd.int_text m)) in
  "   day  num_passengers " +:+ Pd.rjust w " month" +:+ String Py.newline
    ("0    1               3 " +:+ Pd.rjust w (Pd.int_text m) +:+ String Py.newline
       ("1    2               4 " +:+ Pd.rjust w (Pd.int_text m))).


(** Every character of [s] satisfies [P]. *)
Fixpoint all_chars (P : ascii -> bool) (s : string) : bool :=
  match s with
  | String c s' => P c && all_chars P s'
  | EmptyString => true
  end.

(** The characters a text accepted by [int] is made of: white space,
    decimal digits, the two signs and the underscore. *)
Definition int_alphabet (c : ascii) : bool :=
  Py.is_space c
  || match Py.digit_value c with Some _ => true | None => false end
  || Ascii.eqb c "+" || Ascii.eqb c "-" || Ascii.eqb c "_".

(** The names of the columns, in order. *)
Definition names (d : Pd.DataFrame) : list string := map fst (Pd.columns d).

(** Every path of [fs] is still a path of the state. *)
Definition keeps_files (fs : gmap string Pd.DataFrame) (st : state) : Prop :=
  forall p, is_Some (fs !! p) -> is_Some (files st !! p).

(** The month 8 in a directory that can be written. *)
Definition env_eight : env := {| argv := ["pipeline.py"; "8"]; writable := fun _ => true |}.

(** * Properties *)

(** ** [str] and [int] *)

Module PyFacts.
Import Py.

(** [append] does not unfold under [simpl]; its equations are rewritten. *)
Lemma app_nil_l_str (t : string) : "" +:+ t = t.
Proof. reflexivity. Qed.

Lemma app_cons_str (c : ascii) (s t : string) : String c s +:+ t = String c (s +:+ t).
Proof. reflexivity. Qed.

Lemma app_nil_r_str (s : string) : s +:+ "" = s.
Proof. induction s as [| c s IH]; rewrite ?app_nil_l_str, ?app_cons_str; congruence. Qed.

Lemma app_assoc_str (s t u : string) : (s +:+ t) +:+ u = s +:+ (t +:+ u).
Proof. induction s as [| c s IH]; rewrite ?app_nil_l_str, ?app_cons_str; congruence. Qed.

Create Rewrite HintDb pystr.
#[local] Hint Rewrite app_nil_l_str app_cons_str app_nil_r_str : pystr.

Ltac digit_cases d :=
  let H := fresh "H" in
  assert (H : d = 0 \/ d = 1 \/ d = 2 \/ d = 3 \/ d = 4 \/ d = 5 \/ d = 6
              \/ d = 7 \/ d = 8 \/ d = 9) by lia;
  repeat (destruct H as [H | H]); subst d.

Lemma digit_value_digit_char d :
  0 <= d < 10 -> digit_value (digit_char d) = Some d.
Proof. intros Hd. digit_cases d; reflexivity. Qed.

Lemma digit_char_plain d :
  0 <= d < 10 ->
  is_space (digit_char d) = false /\ digit_char d <> "+"%char /\ digit_char d <> "-"%char.
Proof. intros Hd. digit_cases d; repeat split; discriminate. Qed.

Lemma scan_digit d s p a :
  0 <= d < 10 ->
  scan_digits (String (digit_char d) s) p a = scan_digits s PDigit (10 * a + d).
Proof. intros Hd. simpl. now rewrite digit_value_digit_char. Qed.

Lemma digits_of_app f : forall n acc,
  digits_of f n acc = digits_of f n "" +:+ acc.
Proof.
  induction f as [| f IH]; intros n acc; simpl.
  - reflexivity.
  - destruct (n <? 10); [reflexivity |].
    rewrite (IH _ (String _ acc)), (IH _ (String _ "")).
    now rewrite app_assoc_str.
Qed.

Lemma digits_of_head f : forall n acc,
  0 <= n -> exists d t, 0 <= d < 10 /\ digits_of f n acc = String (digit_char d) t.
Proof.
  induction f as [| f IH]; intros n acc Hn; simpl.
  - exists (n mod 10), acc. split; [apply Z.mod_pos_bound; lia | reflexivity].
  - destruct (n <? 10).
    + exists (n mod 10), acc. split; [apply Z.mod_pos_bound; lia | reflexivity].
    + apply IH. apply Z.div_pos; lia.
Qed.

(** Scanning the digits of [n] from the start reaches the value [n]. *)
Lemma scan_digits_of f : forall n acc,
  0 <= n < 10 * 2 ^ Z.of_nat f ->
  scan_digits (digits_of f n acc) PStart 0 = scan_digits acc PDigit n.
Proof.
  induction f as [| f IH]; intros n acc Hn.
  - cbn [digits_of]. change (2 ^ Z.of_nat 0) with 1 in Hn.
    rewrite scan_digit by (apply Z.mod_pos_bound; lia).
    rewrite Z.mod_small by lia. f_equal.
  - cbn [digits_of]. destruct (Z.ltb_spec n 10) as [Hlt | Hge].
    + rewrite scan_digit by (apply Z.mod_pos_bound; lia).
      rewrite Z.mod_small by lia. f_equal.
    + rewrite IH.
      * rewrite scan_digit by (apply Z.mod_pos_bound; lia).
        f_equal. pose proof (Z.div_mod n 10). lia.
      * rewrite Nat2Z.inj_succ, Z.pow_succ_r in Hn by lia.
        split; [apply Z.div_pos; lia |].
        apply Z.div_lt_upper_bound; lia.
Qed.

Lemma log2_fuel n : 0 <= n -> 0 <= n < 10 * 2 ^ Z.of_nat (Z.to_nat (Z.log2 n)).
Proof.
  intros Hn. rewrite Z2Nat.id by apply Z.log2_nonneg.
  destruct (Z.eq_dec n 0) as [-> | Hnz]; [simpl; lia |].
  pose proof (Z.log2_spec n ltac:(lia)) as [_ Hup].
  rewrite Z.pow_succ_r in Hup by apply Z.log2_nonneg. lia.
Qed.

Lemma space_not_digit c : is_space c = true -> digit_value c = None.
Proof.
  unfold is_space, digit_value. set (n := ord c).
  destruct (Z.leb_spec 48 n), (Z.leb_spec n 57); simpl; try reflexivity.
  destruct (Z.leb_spec 9 n), (Z.leb_spec n 13), (Z.eqb_spec n 32),
    (Z.eqb_spec n 133), (Z.eqb_spec n 160); simpl; intros; try discriminate; lia.
Qed.

Lemma space_not_underscore c : is_space c = true -> Ascii.eqb c "_" = false.
Proof.
  intros H. destruct (Ascii.eqb_spec c "_") as [-> | _]; [discriminate | reflexivity].
Qed.

Lemma lstrip_all_space l s : all_space l = true -> lstrip (l +:+ s) = lstrip s.
Proof.
  induction l as [| c l IH]; autorewrite with pystr; simpl; [reflexivity |].
  intros [Hc Hl]%andb_prop. now rewrite Hc, IH.
Qed.

Lemma lstrip_all_space_nil r : all_space r = true -> lstrip r = "".
Proof.
  intros H. pose proof (lstrip_all_space r "" H) as E.
  rewrite app_nil_r_str in E. exact E.
Qed.

(** After the last digit, white space ends the number. *)
Lemma scan_stops_at_space r n :
  all_space r = true -> scan_digits r PDigit n = Some (n, r).
Proof.
  destruct r as [| c r]; simpl; [reflexivity |].
  intros [Hc _]%andb_prop.
  now rewrite (space_not_digit c Hc), (space_not_underscore c Hc).
Qed.

Lemma scan_str_nonneg n r :
  0 <= n -> all_space r = true ->
  scan_digits (str_nonneg n +:+ r) PStart 0 = Some (n, r).
Proof.
  intros Hn Hr. unfold str_nonneg. rewrite <- digits_of_app.
  rewrite scan_digits_of by now apply log2_fuel.
  now apply scan_stops_at_space.
Qed.

Lemma lstrip_str_nonneg n s :
  0 <= n ->
  exists d t, 0 <= d < 10 /\ str_nonneg n +:+ s = String (digit_char d) t.
Proof.
  intros Hn. unfold str_nonneg.
  destruct (digits_of_head (Z.to_nat (Z.log2 n)) n "" Hn) as (d & t & Hd & ->).
  exists d, (t +:+ s). split; [exact Hd | reflexivity].
Qed.

Lemma length_app_str (s t : string) :
  String.length (s +:+ t) = (String.length s + String.length t)%nat.
Proof.
  induction s as [| c s IH]; rewrite ?app_nil_l_str, ?app_cons_str; simpl; congruence.
Qed.

(** The sign test, written as a comparison. *)
Lemma split_sign_spec s :
  split_sign s =
  match s with
  | String c r =>
      if Ascii.eqb c "+" then (1, r)
      else if Ascii.eqb c "-" then (-1, r)
      else (1, s)
  | EmptyString => (1, EmptyString)
  end.
Proof.
  destruct s as [| c r]; [reflexivity |].
  destruct c as [[] [] [] [] [] [] [] []]; reflexivity.
Qed.

(** The conversion of an unsigned decimal between white space. *)
Lemma convert_unsigned l r n :
  all_space l = true -> all_space r = true -> 0 <= n ->
  convert (l +:+ str_nonneg n +:+ r) = Some n.
Proof.
  intros Hl Hr Hn. unfold convert. rewrite lstrip_all_space by exact Hl.
  pose proof (scan_str_nonneg n r Hn Hr) as Hscan.
  destruct (lstrip_str_nonneg n r Hn) as (d & t & Hd & Heq).
  rewrite Heq in *. destruct (digit_char_plain d Hd) as (Hsp & Hplus & Hminus).
  cbn [lstrip]. rewrite Hsp, split_sign_spec.
  rewrite (proj2 (Ascii.eqb_neq _ _) Hplus), (proj2 (Ascii.eqb_neq _ _) Hminus).
  rewrite Hscan, (lstrip_all_space_nil r Hr). f_equal. lia.
Qed.

(** The conversion of a signed decimal between white space. *)
Lemma convert_signed l r (c : ascii) (sg n : Z) :
  (c = "+"%char /\ sg = 1 \/ c = "-"%char /\ sg = -1) ->
  all_space l = true -> all_space r = true -> 0 <= n ->
  convert (l +:+ String c (str_nonneg n +:+ r)) = Some (sg * n).
Proof.
  intros Hc Hl Hr Hn. unfold convert. rewrite lstrip_all_space by exact Hl.
  pose proof (scan_str_nonneg n r Hn Hr) as Hscan.
  destruct Hc as [[-> ->] | [-> ->]]; cbn [lstrip].
  - rewrite (eq_refl : is_space "+" = false). cbn [split_sign].
    now rewrite Hscan, (lstrip_all_space_nil r Hr).
  - rewrite (eq_refl : is_space "-" = false). cbn [split_sign].
    now rewrite Hscan, (lstrip_all_space_nil r Hr).
Qed.

(** Converting the decimal text of [m] gives [m], also with white space
    around the text. *)
Lemma convert_decimal_padded l r m :
  all_space l = true -> all_space r = true ->
  convert (l +:+ decimal m +:+ r) = Some m.
Proof.
  intros Hl Hr. unfold decimal. destruct (Z.ltb_spec m 0) as [Hneg | Hpos].
  - rewrite app_cons_str.
    rewrite (convert_signed l r "-" (-1) (- m)) by (auto; lia). f_equal. lia.
  - now apply convert_unsigned.
Qed.

Lemma convert_decimal m : convert (decimal m) = Some m.
Proof.
  pose proof (convert_decimal_padded "" "" m eq_refl eq_refl) as H.
  now autorewrite with pystr in H.
Qed.

Lemma decimal_inj m m' : decimal m = decimal m' -> m = m'.
Proof.
  intros H. pose proof (convert_decimal m) as Hm.
  rewrite H, convert_decimal in Hm. congruence.
Qed.

(** *** Counting digits *)

Lemma count_digits_digit d s :
  0 <= d < 10 -> count_digits (String (digit_char d) s) = S (count_digits s).
Proof. intros Hd. cbn [count_digits]. now rewrite digit_value_digit_char. Qed.

Lemma count_digits_space r : all_space r = true -> count_digits r = O.
Proof.
  destruct r as [| c r]; simpl; [reflexivity |].
  intros [Hc _]%andb_prop.
  now rewrite (space_not_digit c Hc), (space_not_underscore c Hc).
Qed.

Lemma length_digits_of f n acc :
  String.length (digits_of f n acc)
  = (String.length (digits_of f n "") + String.length acc)%nat.
Proof. now rewrite digits_of_app, length_app_str. Qed.

Lemma count_digits_of f : forall n acc,
  0 <= n ->
  count_digits (digits_of f n acc)
  = (String.length (digits_of f n "") + count_digits acc)%nat.
Proof.
  induction f as [| f IH]; intros n acc Hn; cbn [digits_of].
  - rewrite count_digits_digit by (apply Z.mod_pos_bound; lia). reflexivity.
  - destruct (n <? 10).
    + rewrite count_digits_digit by (apply Z.mod_pos_bound; lia). reflexivity.
    + rewrite IH by (apply Z.div_pos; lia).
      rewrite count_digits_digit by (apply Z.mod_pos_bound; lia).
      rewrite (length_digits_of f (n / 10) (String _ "")). simpl. lia.
Qed.

Lemma count_digits_str_nonneg n r :
  0 <= n -> all_space r = true ->
  count_digits (str_nonneg n +:+ r) = String.length (str_nonneg n).
Proof.
  intros Hn Hr. unfold str_nonneg. rewrite <- digits_of_app.
  rewrite count_digits_of by exact Hn. rewrite (count_digits_space r Hr). lia.
Qed.

(** The digits [int] counts in the decimal text of [m], padded or signed,
    are the digits of [m]. *)
Lemma digit_count_unsigned l r n :
  all_space l = true -> all_space r = true -> 0 <= n ->
  digit_count (l +:+ str_nonneg n +:+ r) = String.length (str_nonneg n).
Proof.
  intros Hl Hr Hn. unfold digit_count. rewrite lstrip_all_space by exact Hl.
  pose proof (count_digits_str_nonneg n r Hn Hr) as Hcount.
  destruct (lstrip_str_nonneg n r Hn) as (d & t & Hd & Heq).
  rewrite Heq in *. destruct (digit_char_plain d Hd) as (Hsp & Hplus & Hminus).
  cbn [lstrip]. rewrite Hsp, split_sign_spec.
  rewrite (proj2 (Ascii.eqb_neq _ _) Hplus), (proj2 (Ascii.eqb_neq _ _) Hminus).
  exact Hcount.
Qed.

Lemma digit_count_signed l r (c : ascii) n :
  c = "+"%char \/ c = "-"%char ->
  all_space l = true -> all_space r = true -> 0 <= n ->
  digit_count (l +:+ String c (str_nonneg n +:+ r)) = String.length (str_nonneg n).
Proof.
  intros Hc Hl Hr Hn. unfold digit_count. rewrite lstrip_all_space by exact Hl.
  destruct Hc as [-> | ->]; cbn [lstrip].
  - rewrite (eq_refl : is_space "+" = false). cbn [split_sign snd].
    now apply count_digits_str_nonneg.
  - rewrite (eq_refl : is_space "-" = false). cbn [split_sign snd].
    now apply count_digits_str_nonneg.
Qed.

Lemma digit_count_decimal_padded l r m :
  all_space l = true -> all_space r = true ->
  digit_count (l +:+ decimal m +:+ r) = decimal_digits m.
Proof.
  intros Hl Hr. unfold decimal, decimal_digits.
  destruct (Z.ltb_spec m 0) as [Hneg | Hpos].
  - rewrite app_cons_str, digit_count_signed by (auto; lia).
    now rewrite Z.abs_neq by lia.
  - rewrite digit_count_unsigned by auto. now rewrite Z.abs_eq by lia.
Qed.

(** [int] on the decimal text of [m]: [m] when the digits are within the
    limit. *)
Lemma int_decimal_padded l r m :
  all_space l = true -> all_space r = true ->
  (decimal_digits m <= max_str_digits)%nat ->
  int (l +:+ decimal m +:+ r) = Some m.
Proof.
  intros Hl Hr Hm. unfold int. rewrite digit_count_decimal_padded by assumption.
  destruct (Nat.ltb_spec max_str_digits (decimal_digits m)); [lia |].
  now apply convert_decimal_padded.
Qed.

Lemma int_decimal m :
  (decimal_digits m <= max_str_digits)%nat -> int (decimal m) = Some m.
Proof.
  intros Hm. pose proof (int_decimal_padded "" "" m eq_refl eq_refl Hm) as H.
  now autorewrite with pystr in H.
Qed.

Lemma int_convert s m : int s = Some m -> convert s = Some m.
Proof. unfold int. now destruct (max_str_digits <? digit_count s)%nat. Qed.

Lemma int_digit_count s m : int s = Some m -> (digit_count s <= max_str_digits)%nat.
Proof.
  unfold int. destruct (Nat.ltb_spec max_str_digits (digit_count s)); [discriminate | lia].
Qed.

(** *** The size of what [int] returns *)

Lemma digit_value_range c d : digit_value c = Some d -> 0 <= d <= 9.
Proof.
  unfold digit_value. set (n := ord c).
  destruct (Z.leb_spec 48 n), (Z.leb_spec n 57); simpl; intros [= <-]; lia.
Qed.

(** The value scanned has at most as many digits as were counted. *)
Lemma scan_bound s : forall p acc v rest,
  scan_digits s p acc = Some (v, rest) -> 0 <= acc ->
  acc * 10 ^ Z.of_nat (count_digits s) <= v
  < (acc + 1) * 10 ^ Z.of_nat (count_digits s).
Proof.
  induction s as [| c s IH]; intros p acc v rest; cbn [scan_digits count_digits].
  - destruct p; intros [= <- _] Hacc; simpl; lia.
  - destruct (digit_value c) as [d |] eqn:Hd.
    + intros H Hacc. apply digit_value_range in Hd.
      apply IH in H; [| lia].
      rewrite Nat2Z.inj_succ, Z.pow_succ_r by lia.
      assert (0 < 10 ^ Z.of_nat (count_digits s)) by (apply Z.pow_pos_nonneg; lia).
      nia.
    + destruct (Ascii.eqb c "_").
      * destruct p; try discriminate. intros H Hacc. now apply IH in H.
      * destruct p; intros [= <- _] Hacc; simpl; lia.
Qed.

Lemma split_sign_unit s : (split_sign s).1 = 1 \/ (split_sign s).1 = -1.
Proof.
  rewrite split_sign_spec. destruct s as [| c r]; [now left |].
  destruct (Ascii.eqb c "+"); [now left |].
  destruct (Ascii.eqb c "-"); [now right | now left].
Qed.

Lemma convert_bound s m :
  convert s = Some m -> Z.abs m < 10 ^ Z.of_nat (digit_count s).
Proof.
  unfold convert, digit_count.
  pose proof (split_sign_unit (lstrip s)) as Hsign.
  destruct (split_sign (lstrip s)) as [sign s2]. cbn [fst snd] in *.
  destruct (scan_digits s2 PStart 0) as [[v rest] |] eqn:Hscan; [| discriminate].
  destruct (lstrip rest); [| discriminate]. intros [= <-].
  apply scan_bound in Hscan; [| lia].
  destruct Hsign as [-> | ->]; lia.
Qed.

(** A number below [10 ^ d] has at most [d] digits. *)
Lemma length_digits_bound f : forall n acc d,
  0 <= n < 10 ^ Z.of_nat d -> (1 <= d)%nat ->
  (String.length (digits_of f n acc) <= String.length acc + d)%nat.
Proof.
  induction f as [| f IH]; intros n acc d Hn Hd; cbn [digits_of].
  - simpl. lia.
  - destruct (Z.ltb_spec n 10) as [Hlt | Hge]; [simpl; lia |].
    destruct d as [| [| d]]; [lia | simpl in Hn; lia |].
    specialize (IH (n / 10) (String (digit_char (n mod 10)) acc) (S d)).
    simpl String.length in IH.
    assert (0 <= n / 10 < 10 ^ Z.of_nat (S d)).
    { rewrite (Nat2Z.inj_succ (S d)), Z.pow_succ_r in Hn by lia.
      split; [apply Z.div_pos; lia | apply Z.div_lt_upper_bound; lia]. }
    specialize (IH ltac:(assumption) ltac:(lia)). lia.
Qed.

Lemma decimal_digits_bound m d :
  Z.abs m < 10 ^ Z.of_nat d -> (1 <= d)%nat -> (decimal_digits m <= d)%nat.
Proof.
  intros Hm Hd. unfold decimal_digits, str_nonneg.
  pose proof (length_digits_bound (Z.to_nat (Z.log2 (Z.abs m))) (Z.abs m) "" d) as H.
  simpl String.length in H. apply H; [lia | exact Hd].
Qed.

(** What [int] returns can be formatted again. *)
Lemma int_decimal_digits s m :
  int s = Some m -> (decimal_digits m <= max_str_digits)%nat.
Proof.
  intros H. pose proof (int_digit_count s m H) as Hcount.
  apply int_convert, convert_bound in H.
  apply decimal_digits_bound; [| unfold max_str_digits; lia].
  eapply Z.lt_le_trans; [exact H |].
  apply Z.pow_le_mono_r; lia.
Qed.

Lemma str_of_int s m : int s = Some m -> str m = Some (decimal m).
Proof.
  intros H%int_decimal_digits. unfold str.
  destruct (Nat.ltb_spec max_str_digits (decimal_digits m)); [lia | reflexivity].
Qed.

End PyFacts.


(** ** Frames *)

Module PdFacts.
Import Pd.

Lemma of_dict_aligned l d : of_dict l = Ok d -> aligned d.
Proof.
  unfold of_dict, aligned. destruct (forallb _ l) eqn:Hall; [| discriminate].
  intros [= <-]. simpl. apply Forall_forall. intros c Hc.
  rewrite forallb_forall in Hall. apply Nat.eqb_eq, Hall.
  now apply list_elem_of_In.
Qed.

Lemma set_column_lengths k v cs n :
  length v = n ->
  Forall (fun c : string * list Z => length c.2 = n) cs ->
  Forall (fun c : string * list Z => length c.2 = n) (set_column k v cs).
Proof.
  intros Hv. induction 1 as [| c cs Hc Hcs IH]; simpl.
  - repeat constructor. exact Hv.
  - destruct (String.eqb k c.1); constructor; auto.
Qed.

(** A scalar assignment fills exactly [nrows] cells, so it keeps the
    columns aligned. *)
Lemma setitem_aligned d k x : aligned d -> aligned (setitem d k x).
Proof.
  unfold aligned, setitem. simpl. apply set_column_lengths.
  now rewrite length_replicate.
Qed.

Lemma setitem_nrows d k x : nrows (setitem d k x) = nrows d.
Proof. reflexivity. Qed.

Lemma head_aligned n d : aligned d -> aligned (head n d).
Proof.
  unfold aligned, head. simpl. intros H. apply Forall_map.
  eapply Forall_impl; [exact H |]. intros c Hc. simpl.
  simpl in Hc. now rewrite length_take, Hc.
Qed.

(** Assigning column [k] leaves every other column as it was. *)
Lemma setitem_other d k k' x :
  k <> k' -> column (setitem d k x) k' = column d k'.
Proof.
  intros Hne. unfold column, setitem. simpl.
  induction (columns d) as [| c cs IH]; simpl.
  - destruct (String.eqb_spec k' k); [congruence | reflexivity].
  - destruct (String.eqb_spec k c.1) as [-> | Hk]; simpl.
    + destruct (String.eqb_spec k' c.1); [congruence | reflexivity].
    + destruct (String.eqb k' c.1); [reflexivity | exact IH].
Qed.

(** A new column goes after the existing ones, whose order is kept. *)
Lemma setitem_fresh d k x :
  k ∉ map fst (columns d) ->
  columns (setitem d k x) = columns d ++ [(k, replicate (nrows d) x)].
Proof.
  unfold setitem. simpl. generalize (replicate (nrows d) x). intros v.
  induction (columns d) as [| c cs IH]; simpl; intros Hk; [reflexivity |].
  destruct (String.eqb_spec k c.1) as [-> | Hne].
  - exfalso. apply Hk. left.
  - f_equal. apply IH. intros Hin. apply Hk. now right.
Qed.

End PdFacts.

(** ** Runs of the script *)

Lemma of_dict_literal :
  Pd.of_dict [("day", [1; 2]); ("num_passengers", [3; 4])] = Ok base_table.
Proof. reflexivity. Qed.

Lemma setitem_base m : Pd.setitem base_table "month" m = table m.
Proof. reflexivity. Qed.

Lemma head_table m : Pd.head 5 (table m) = table m.
Proof. reflexivity. Qed.

Ltac unfold_script :=
  cbv [run run_upto program take exec stmt_argv stmt_print_args stmt_month stmt_df
       stmt_setitem stmt_print_head stmt_to_parquet stmt_print_hello
       mbind result_bind or_raise init print to_parquet
       trace files month df app].

Lemma storable_table m :
  Pd.storable (table m) = Pd.in_int64 m || Pd.in_uint64 m.
Proof.
  unfold Pd.storable, table. cbn [Pd.columns forallb snd].
  change (Pd.in_int64 1 || Pd.in_uint64 1) with true.
  change (Pd.in_int64 2 || Pd.in_uint64 2) with true.
  change (Pd.in_int64 3 || Pd.in_uint64 3) with true.
  change (Pd.in_int64 4 || Pd.in_uint64 4) with true.
  cbn [andb]. now destruct (Pd.in_int64 m || Pd.in_uint64 m).
Qed.

(** The months the parquet writer can store. *)
Lemma storable_table_iff m : Pd.storable (table m) = true <-> - 2 ^ 63 <= m < 2 ^ 64.
Proof.
  rewrite storable_table. unfold Pd.in_int64, Pd.in_uint64.
  destruct (Z.leb_spec (- 2 ^ 63) m), (Z.ltb_spec m (2 ^ 63)),
    (Z.leb_spec 0 m), (Z.ltb_spec m (2 ^ 64)); cbn; split; intros; try discriminate;
    try reflexivity; lia.
Qed.

(** A month of 64 bits has at most twenty digits. *)
Lemma decimal_digits_64 m :
  - 2 ^ 63 <= m < 2 ^ 64 -> (Py.decimal_digits m <= 20)%nat.
Proof.
  intros Hm. apply PyFacts.decimal_digits_bound; [| lia].
  change (Z.of_nat 20) with 20. lia.
Qed.

Lemma int_decimal_64 m : - 2 ^ 63 <= m < 2 ^ 64 -> Py.int (Py.decimal m) = Some m.
Proof.
  intros Hm%decimal_digits_64. apply PyFacts.int_decimal.
  unfold Py.max_str_digits. lia.
Qed.

(** The five ways a run can go. *)
Lemma run_cases e fs :
  run e fs =
  match argv e !! 1%nat with
  | None => (Some IndexError, echoed e fs)
  | Some a =>
      match Py.int a with
      | None => (Some ValueError, echoed e fs)
      | Some m =>
          if Pd.storable (table m)
          then if writable e (output_path m)
               then (None, finished e fs m)
               else (Some OSError, previewed e fs m)
          else (Some OverflowError, previewed e fs m)
      end
  end.
Proof.
  unfold_script.
  destruct (argv e !! 1%nat) as [a |]; [| reflexivity].
  destruct (Py.int a) as [m |] eqn:Hm; [| reflexivity].
  rewrite of_dict_literal. unfold_script. rewrite setitem_base, head_table.
  rewrite (PyFacts.str_of_int a m Hm). unfold_script.
  destruct (Pd.storable (table m)); [| reflexivity]. cbn [negb].
  fold (output_path m).
  destruct (writable e (output_path m)); [| reflexivity].
  rewrite (PyFacts.str_of_int a m Hm). reflexivity.
Qed.

(** *** Statements only add to the trace *)

Ltac stmt_cases :=
  repeat match goal with
    | H : context [match ?x with _ => _ end] |- _ => destruct x eqn:?
    | H : Ok _ = Ok _ |- _ => injection H as <-
    | H : Raise _ = Ok _ |- _ => discriminate H
    end.

(** A property of every statement of the script, one statement at a time. *)
Lemma Forall_program (P : stmt -> Prop) :
  P stmt_argv -> P stmt_print_args -> P stmt_month -> P stmt_df ->
  P stmt_setitem -> P stmt_print_head -> P stmt_to_parquet -> P stmt_print_hello ->
  Forall P program.
Proof. intros. unfold program. repeat constructor; assumption. Qed.

Lemma program_extends_trace : Forall extends_trace program.
Proof.
  apply Forall_program; intros e st st' H;
    cbv [stmt_argv stmt_print_args stmt_month stmt_df stmt_setitem stmt_print_head
         stmt_to_parquet stmt_print_hello mbind result_bind or_raise print
         to_parquet] in H;
    stmt_cases; cbn [trace]; solve [reflexivity | apply prefix_app_r; reflexivity].
Qed.

Lemma exec_extends p e : Forall extends_trace p ->
  forall st, trace st `prefix_of` trace (exec p e st).2.
Proof.
  induction 1 as [| s p Hs Hp IH]; intros st; simpl; [reflexivity |].
  destruct (s e st) as [st' |] eqn:Hst; [| reflexivity].
  etransitivity; [apply (Hs _ _ _ Hst) | apply IH].
Qed.

(** The trace of a run cut short is a prefix of the trace of the run. *)
Lemma exec_take_prefix p e : Forall extends_trace p ->
  forall k st, trace (exec (take k p) e st).2 `prefix_of` trace (exec p e st).2.
Proof.
  induction 1 as [| s p Hs Hp IH]; intros k st.
  - now rewrite take_nil.
  - destruct k as [| k]; cbn [take].
    + apply (exec_extends (s :: p)). now constructor.
    + cbn [exec]. destruct (s e st) as [st' |]; [apply IH | reflexivity].
Qed.

Lemma run_upto_prefix k e fs :
  trace (run_upto k e fs).2 `prefix_of` trace (run e fs).2.
Proof. apply exec_take_prefix, program_extends_trace. Qed.

(** *** Invariants of the statements *)

Lemma exec_preserves I p e : Forall (preserves I) p ->
  forall st, I st -> I (exec p e st).2.
Proof.
  induction 1 as [| s p Hs Hp IH]; intros st Hst; simpl; [exact Hst |].
  destruct (s e st) as [st' |] eqn:Hrun; [| exact Hst].
  apply IH. eapply Hs; eauto.
Qed.

Lemma Forall_take {A} (P : A -> Prop) k (l : list A) : Forall P l -> Forall P (take k l).
Proof. intros H. revert k. induction H; intros [| k]; simpl; constructor; auto. Qed.

Lemma two_rows_setitem d k x : two_rows d -> two_rows (Pd.setitem d k x).
Proof.
  intros [Hn Hc]. split; [exact Hn |]. unfold Pd.setitem. simpl.
  apply PdFacts.set_column_lengths; [| exact Hc].
  now rewrite length_replicate.
Qed.

Lemma two_rows_base : two_rows base_table.
Proof. split; [reflexivity |]. repeat constructor. Qed.

Lemma program_tables_two_rows : Forall (preserves tables_two_rows) program.
Proof.
  apply Forall_program; intros e st st' [Hdf Hw] H;
    cbv [stmt_argv stmt_print_args stmt_month stmt_df stmt_setitem stmt_print_head
         stmt_to_parquet stmt_print_hello mbind result_bind or_raise print
         to_parquet] in H.
  - stmt_cases. now split.
  - stmt_cases. split; [exact Hdf |]. cbn [trace]. intros p d Hin.
    apply elem_of_app in Hin as [Hin | Hin]; [eauto |].
    apply list_elem_of_singleton in Hin. discriminate.
  - stmt_cases. now split.
  - rewrite of_dict_literal in H. stmt_cases. split; [| exact Hw].
    cbn [df]. intros d [= <-]. apply two_rows_base.
  - stmt_cases. split; [| exact Hw]. cbn [df]. intros d' [= <-].
    apply two_rows_setitem. auto.
  - stmt_cases. split; [exact Hdf |]. cbn [trace]. intros p d' Hin.
    apply elem_of_app in Hin as [Hin | Hin]; [eauto |].
    apply list_elem_of_singleton in Hin. discriminate.
  - stmt_cases. split; [exact Hdf |]. cbn [trace]. intros p d' Hin.
    apply elem_of_app in Hin as [Hin | Hin]; [eauto |].
    apply list_elem_of_singleton in Hin. injection Hin as -> ->. auto.
  - stmt_cases. split; [exact Hdf |]. cbn [trace]. intros p d' Hin.
    apply elem_of_app in Hin as [Hin | Hin]; [eauto |].
    apply list_elem_of_singleton in Hin. discriminate.
Qed.

(** *** The three printed texts differ *)

Lemma hello_not_args m a : hello m <> args_line a.
Proof. cbv [hello args_line append]. discriminate. Qed.

Lemma to_string_table_head m : exists t, Pd.to_string (table m) = String " " t.
Proof. eexists. reflexivity. Qed.

Lemma hello_not_preview m m' : hello m <> Pd.to_string (table m').
Proof.
  destruct (to_string_table_head m') as [t ->].
  cbv [hello append]. discriminate.
Qed.

Lemma Some_Printed_inj s t : Some (Printed s) = Some (Printed t) -> s = t.
Proof. congruence. Qed.

Lemma Printed_inj s t : Printed s = Printed t -> s = t.
Proof. congruence. Qed.

Lemma hello_inj m m' : hello m = hello m' -> m = m'.
Proof. unfold hello. intros H%String.app_inj. now apply PyFacts.decimal_inj. Qed.

(** *** Runs that read the same argument *)

(** Everything but the echo is decided by the argument at position 1. *)
Lemma run_same_argument (a1 a2 : list string) w fs :
  a1 !! 1%nat = a2 !! 1%nat ->
  (run {| argv := a1; writable := w |} fs).1 = (run {| argv := a2; writable := w |} fs).1 /\
  month (run {| argv := a1; writable := w |} fs).2
    = month (run {| argv := a2; writable := w |} fs).2 /\
  df (run {| argv := a1; writable := w |} fs).2
    = df (run {| argv := a2; writable := w |} fs).2 /\
  files (run {| argv := a1; writable := w |} fs).2
    = files (run {| argv := a2; writable := w |} fs).2 /\
  drop 1 (trace (run {| argv := a1; writable := w |} fs).2)
    = drop 1 (trace (run {| argv := a2; writable := w |} fs).2).
Proof.
  intros Heq. rewrite !run_cases. cbn [argv writable]. rewrite Heq.
  destruct (a2 !! 1%nat) as [a |]; [| now repeat split].
  destruct (Py.int a) as [m |]; [| now repeat split].
  destruct (Pd.storable (table m)); [| now repeat split].
  destruct (w (output_path m)); now repeat split.
Qed.

(** The value of [df] at each cut of a run that reaches its end. *)
Lemma df_history_finished e fs a m :
  argv e !! 1%nat = Some a -> Py.int a = Some m ->
  Pd.storable (table m) = true ->
  writable e (output_path m) = true ->
  df_history 9 e fs =
    [None; None; None; None; Some base_table; Some (table m); Some (table m);
     Some (table m); Some (table m)].
Proof.
  intros Ha Hm Hs Hw. unfold df_history. cbn [seq map].
  unfold_script. rewrite Ha, Hm. unfold_script.
  rewrite of_dict_literal. unfold_script. rewrite setitem_base. unfold_script.
  rewrite (PyFacts.str_of_int a m Hm). unfold_script.
  rewrite Hs. cbn [negb]. fold (output_path m). rewrite Hw.
  rewrite (PyFacts.str_of_int a m Hm). reflexivity.
Qed.

(** A successful run read an integer of 64 bits and could write its file. *)
Lemma run_finished_range e fs st :
  run e fs = (None, st) ->
  exists a m, argv e !! 1%nat = Some a /\ Py.int a = Some m /\
    - 2 ^ 63 <= m < 2 ^ 64 /\
    writable e (output_path m) = true /\ st = finished e fs m.
Proof.
  rewrite run_cases.
  destruct (argv e !! 1%nat) as [a |]; [| discriminate].
  destruct (Py.int a) as [m |] eqn:Hm; [| discriminate].
  destruct (Pd.storable (table m)) eqn:Hs; [| discriminate].
  destruct (writable e (output_path m)) eqn:Hw; [| discriminate].
  intros [= <-]. exists a, m.
  pose proof (proj1 (storable_table_iff m) Hs) as [Hlo Hhi].
  split_and!; [reflexivity | exact Hm | exact Hlo | exact Hhi | exact Hw | reflexivity].
Qed.

Lemma run_finished_inv e fs st :
  run e fs = (None, st) ->
  exists a m, argv e !! 1%nat = Some a /\ Py.int a = Some m /\
    writable e (output_path m) = true /\ st = finished e fs m.
Proof.
  intros (a & m & Ha & Hm & _ & Hw & Hst)%run_finished_range. now exists a, m.
Qed.


(** *** The text of the table *)

Lemma length_decimal m :
  String.length (Py.decimal m)
  = if m <? 0 then S (Py.decimal_digits m) else Py.decimal_digits m.
Proof.
  unfold Py.decimal, Py.decimal_digits. destruct (Z.ltb_spec m 0).
  - simpl. now rewrite Z.abs_neq by lia.
  - now rewrite Z.abs_eq by lia.
Qed.

Lemma length_int_text m : String.length (Pd.int_text m) = S (Py.decimal_digits m).
Proof.
  unfold Pd.int_text. pose proof (length_decimal m) as H.
  destruct (m <? 0); [exact H |].
  rewrite PyFacts.app_cons_str, PyFacts.app_nil_l_str. simpl. now rewrite H.
Qed.

Lemma month_numeric m :
  - 2 ^ 63 <= m < 2 ^ 64 -> Pd.dtype_of [m; m] <> Pd.Object.
Proof.
  intros Hm. unfold Pd.dtype_of. cbn [forallb]. unfold Pd.in_int64, Pd.in_uint64.
  destruct (Z.leb_spec (- 2 ^ 63) m), (Z.ltb_spec m (2 ^ 63)),
    (Z.leb_spec 0 m), (Z.ltb_spec m (2 ^ 64)); cbn; try discriminate; lia.
Qed.

Lemma month_header m :
  - 2 ^ 63 <= m < 2 ^ 64 -> Pd.header_text ("month", [m; m]) = " month".
Proof.
  intros Hm%month_numeric. unfold Pd.header_text. cbn [snd fst].
  now destruct (Pd.dtype_of [m; m]).
Qed.

Lemma month_cell m :
  - 2 ^ 63 <= m < 2 ^ 64 -> Pd.cell_text ("month", [m; m]) m = Pd.int_text m.
Proof.
  intros Hm%month_numeric. unfold Pd.cell_text. cbn [snd].
  now destruct (Pd.dtype_of [m; m]).
Qed.

Lemma month_widths m :
  - 2 ^ 63 <= m < 2 ^ 64 ->
  Pd.column_width ("month", [m; m]) = Nat.max 6 (String.length (Pd.int_text m)) /\
  Pd.values_width ("month", [m; m]) = Nat.max 6 (String.length (Pd.int_text m)).
Proof.
  intros Hm. pose proof (decimal_digits_64 m Hm) as Hd.
  pose proof (length_int_text m) as Hlen.
  unfold Pd.values_width, Pd.column_width, Pd.width. cbn [snd map foldr].
  rewrite (month_header m Hm), (month_cell m Hm).
  change (String.length " month") with 6%nat. unfold Pd.max_colwidth. lia.
Qed.

Lemma length_spaces n : String.length (Pd.spaces n) = n.
Proof. induction n; simpl; congruence. Qed.

(** Padding on the right a text that already has the width changes nothing. *)
Lemma ljust_rjust w s :
  (String.length s <= w)%nat -> Pd.ljust w (Pd.rjust w s) = Pd.rjust w s.
Proof.
  intros Hs. unfold Pd.ljust.
  replace (w - String.length (Pd.rjust w s))%nat with O.
  - apply PyFacts.app_nil_r_str.
  - unfold Pd.rjust. rewrite PyFacts.length_app_str, length_spaces. lia.
Qed.

(** The text of the table of a month of 64 bits, spelled out. *)
Lemma to_string_table m :
  - 2 ^ 63 <= m < 2 ^ 64 -> Pd.to_string (table m) = table_text m.
Proof.
  intros Hm. destruct (month_widths m Hm) as [Hcw Hvw].
  unfold Pd.to_string, Pd.line, table_text.
  cbn [table Pd.nrows Pd.columns seq map nth snd].
  rewrite Hcw, Hvw, (month_header m Hm), (month_cell m Hm).
  rewrite (ljust_rjust (Nat.max 6 (String.length (Pd.int_text m))) (Pd.int_text m))
    by lia.
  reflexivity.
Qed.

(** * Properties of the script *)

(** C1.  For every integer [m] that fits 64 bits, signed or unsigned
    ([- 2 ^ 63 <= m < 2 ^ 64], negative months included), a run whose
    argument 1 is the decimal text of [m] ends without exception and
    leaves the file [output_<m>.parquet] in the working directory (when
    that path can be written), holding a table of two rows and the three
    columns [day = [1,2]], [num_passengers = [3,4]] and [month = [m,m]],
    that is the rows [(1,3,m)] and [(2,4,m)].  The script checks no range
    itself. *)
Theorem output_file_for_every_month
    (m : Z) (prog : string) (rest : list string)
    (w : string -> bool) (fs : gmap string Pd.DataFrame) :
  - 2 ^ 63 <= m < 2 ^ 64 ->
  w ("output_" +:+ Py.decimal m +:+ ".parquet") = true ->
  let r := run {| argv := prog :: Py.decimal m :: rest; writable := w |} fs in
  r.1 = None /\
  exit_code r.1 = 0 /\
  exists d,
    files r.2 = <["output_" +:+ Py.decimal m +:+ ".parquet" := d]> fs /\
    files r.2 !! ("output_" +:+ Py.decimal m +:+ ".parquet") = Some d /\
    Pd.nrows d = 2%nat /\
    Pd.columns d = [("day", [1; 2]); ("num_passengers", [3; 4]); ("month", [m; m])] /\
    Pd.rows d = [[1; 3; m]; [2; 4; m]].
Proof.
  intros Hm Hw r. subst r. rewrite run_cases. cbn [argv writable lookup list_lookup].
  rewrite (int_decimal_64 m Hm), (proj2 (storable_table_iff m) Hm).
  fold (output_path m) in Hw |- *. rewrite Hw.
  cbn [fst snd finished files]. repeat split.
  exists (table m). repeat split. apply lookup_insert_eq.
Qed.

(** The scenario of the specification: month -1. *)
Example scenario_minus_one :
  let r := run {| argv := ["pipeline.py"; "-1"]; writable := fun _ => true |} ∅ in
  r.1 = None /\
  Pd.rows <$> (files r.2 !! "output_-1.parquet") = Some [[1; 3; -1]; [2; 4; -1]].
Proof. vm_compute. split; reflexivity. Qed.

(** The scenario of the specification: month 7. *)
Example scenario_seven :
  let r := run {| argv := ["pipeline.py"; "7"]; writable := fun _ => true |} ∅ in
  r.1 = None /\
  Pd.rows <$> (files r.2 !! "output_7.parquet") = Some [[1; 3; 7]; [2; 4; 7]] /\
  stdout r.2 !! 2%nat = Some "hello month=7".
Proof. vm_compute. repeat split; reflexivity. Qed.

(** C2.  A run that ends without exception has written exactly three
    texts to standard output, in this order: ["args "] followed by the
    argument list between brackets, each argument as [repr] shows it; the
    text of the first five rows of the table, which are all of its two
    rows, under the column names; and ["hello month="] followed by the
    parsed month. *)
Theorem stdout_of_successful_run (e : env) (fs : gmap string Pd.DataFrame) (st : state) :
  run e fs = (None, st) ->
  exists a m,
    argv e !! 1%nat = Some a /\ Py.int a = Some m /\
    df st =
      Some {| Pd.nrows := 2;
              Pd.columns :=
                [("day", [1; 2]); ("num_passengers", [3; 4]); ("month", [m; m])] |} /\
    Pd.head 5 (table m) = table m /\
    Pd.to_string (Pd.head 5 (table m)) =
      (let w := Nat.max 6 (String.length (Pd.int_text m)) in
       "   day  num_passengers " +:+ Pd.rjust w " month" +:+ String Py.newline
         ("0    1               3 " +:+ Pd.rjust w (Pd.int_text m) +:+ String Py.newline
            ("1    2               4 " +:+ Pd.rjust w (Pd.int_text m)))) /\
    stdout st =
      ["args [" +:+ Py.join ", " (map Py.repr_str (argv e)) +:+ "]";
       Pd.to_string (Pd.head 5 (table m));
       "hello month=" +:+ Py.decimal m].
Proof.
  intros (a & m & Ha & Hm & Hr & _ & ->)%run_finished_range.
  exists a, m. split_and!; try assumption; try reflexivity.
  rewrite head_table. now apply to_string_table.
Qed.

(** C3.  When argument 1 is absent, or is not convertible to an integer,
    the run ends with an exception, [IndexError] in the first case and
    [ValueError] in the second, that nothing catches or replaces; the exit
    code is not zero, no file is written and the working directory is as
    it was. *)
Theorem argument_error_aborts (e : env) (fs : gmap string Pd.DataFrame) :
  (argv e !! 1%nat = None \/ exists a, argv e !! 1%nat = Some a /\ Py.int a = None) ->
  exists x st,
    run e fs = (Some x, st) /\
    (argv e !! 1%nat = None -> x = IndexError) /\
    (forall a, argv e !! 1%nat = Some a -> x = ValueError) /\
    exit_code (Some x) <> 0 /\
    files st = fs /\
    (forall p d, Written p d ∉ trace st).
Proof.
  intros H. rewrite run_cases.
  assert (Hnowrite : forall p d, Written p d ∉ trace (echoed e fs)).
  { intros p d Hin. cbn [echoed trace] in Hin.
    apply list_elem_of_singleton in Hin. discriminate. }
  destruct H as [Hnone | (a & Ha & Hint)].
  - rewrite Hnone. exists IndexError, (echoed e fs).
    split_and!; [reflexivity | reflexivity | discriminate | discriminate
                | reflexivity | exact Hnowrite].
  - rewrite Ha, Hint. exists ValueError, (echoed e fs).
    split_and!; [reflexivity | discriminate | reflexivity | discriminate
                | reflexivity | exact Hnowrite].
Qed.

(** C4.  At every point of a run, the table held in [df], and every table
    handed to the parquet writer, has two rows and columns that all have
    two values; assigning a scalar to a column keeps the columns of any
    aligned table aligned, since the scalar fills one cell per row. *)
Theorem columns_equal_length_always
    (k : nat) (e : env) (fs : gmap string Pd.DataFrame) :
  (forall d, df (run_upto k e fs).2 = Some d ->
     Pd.aligned d /\ Pd.nrows d = 2%nat /\
     Forall (fun c => length c.2 = 2%nat) (Pd.columns d)) /\
  (forall p d, Written p d ∈ trace (run_upto k e fs).2 ->
     Pd.aligned d /\ Pd.nrows d = 2%nat /\
     Forall (fun c => length c.2 = 2%nat) (Pd.columns d)) /\
  (forall d x, Pd.aligned d -> Pd.aligned (Pd.setitem d "month" x)).
Proof.
  assert (Hinv : tables_two_rows (run_upto k e fs).2).
  { unfold run_upto. apply (exec_preserves tables_two_rows).
    - apply Forall_take, program_tables_two_rows.
    - split; [discriminate |]. cbn [init trace]. intros p d Hin.
      now apply elem_of_nil in Hin. }
  assert (Hal : forall d, two_rows d ->
            Pd.aligned d /\ Pd.nrows d = 2%nat /\
            Forall (fun c => length c.2 = 2%nat) (Pd.columns d)).
  { intros d [Hn Hc]. repeat split; try assumption.
    unfold Pd.aligned. now rewrite Hn. }
  destruct Hinv as [Hdf Hw]. split; [| split].
  - intros d Hd. now apply Hal, Hdf.
  - intros p d Hd. eapply Hal, Hw, Hd.
  - intros d x. apply PdFacts.setitem_aligned.
Qed.

(** C6.  Two argument lists that agree at position 1 give the same
    outcome, the same parsed month, the same table, the same files, and,
    after the echo of the argument list, the same effects: the preview,
    the write of the output file with its name and content, and the
    confirmation line.  Arguments at other positions change none of these. *)
Theorem only_argument_one_is_read
    (a1 a2 : list string) (w : string -> bool) (fs : gmap string Pd.DataFrame) :
  a1 !! 1%nat = a2 !! 1%nat ->
  let r1 := run {| argv := a1; writable := w |} fs in
  let r2 := run {| argv := a2; writable := w |} fs in
  r1.1 = r2.1 /\
  month r1.2 = month r2.2 /\
  df r1.2 = df r2.2 /\
  files r1.2 = files r2.2 /\
  drop 1 (trace r1.2) = drop 1 (trace r2.2).
Proof. intros Heq. now apply run_same_argument. Qed.

(** C7.  In a run that reaches its end, [df] is bound by line 9 and
    changes exactly once afterwards, at line 10, where the month column is
    added.  The addition leaves [day = [1,2]] and [num_passengers = [3,4]],
    keeps the order of the existing columns with [month] appended last,
    and keeps the row count at two. *)
Theorem month_column_added_once (e : env) (fs : gmap string Pd.DataFrame) (st : state) :
  run e fs = (None, st) ->
  exists m d0 d1,
    month st = Some m /\
    d1 = Pd.setitem d0 "month" m /\
    d0 <> d1 /\
    df_history 9 e fs =
      [None; None; None; None; Some d0; Some d1; Some d1; Some d1; Some d1] /\
    df st = Some d1 /\
    Pd.column d0 "day" = Some [1; 2] /\
    Pd.column d0 "num_passengers" = Some [3; 4] /\
    Pd.column d1 "day" = Some [1; 2] /\
    Pd.column d1 "num_passengers" = Some [3; 4] /\
    Pd.column d1 "month" = Some [m; m] /\
    map fst (Pd.columns d0) = ["day"; "num_passengers"] /\
    map fst (Pd.columns d1) = map fst (Pd.columns d0) ++ ["month"] /\
    Pd.nrows d0 = 2%nat /\
    Pd.nrows d1 = Pd.nrows d0.
Proof.
  intros (a & m & Ha & Hm & Hr & Hw & ->)%run_finished_range.
  exists m, base_table, (Pd.setitem base_table "month" m).
  split_and!.
  - reflexivity.
  - reflexivity.
  - discriminate.
  - rewrite setitem_base. apply (df_history_finished e fs a m); try assumption.
    now apply storable_table_iff.
  - reflexivity.
  - reflexivity.
  - reflexivity.
  - now rewrite PdFacts.setitem_other.
  - now rewrite PdFacts.setitem_other.
  - reflexivity.
  - reflexivity.
  - rewrite PdFacts.setitem_fresh.
    + now rewrite map_app.
    + cbn [base_table Pd.columns map fst]. intros Hin.
      repeat (apply elem_of_cons in Hin as [Hin | Hin]; [discriminate Hin |]).
      now apply elem_of_nil in Hin.
  - reflexivity.
  - apply PdFacts.setitem_nrows.
Qed.

(** C8.  At every point of every run, a confirmation line in the trace has
    the write of [output_<month>.parquet] before it; and in a run whose
    write fails with [OSError], no confirmation line is printed at any
    point. *)
Theorem write_precedes_confirmation (e : env) (fs : gmap string Pd.DataFrame) :
  (forall k m i,
     trace (run_upto k e fs).2 !! i = Some (Printed (hello m)) ->
     exists j, (j < i)%nat /\
       trace (run_upto k e fs).2 !! j = Some (Written (output_path m) (table m))) /\
  ((run e fs).1 = Some OSError ->
   forall k m, Printed (hello m) ∉ trace (run_upto k e fs).2).
Proof.
  split.
  - intros k m i Hi.
    pose proof (run_upto_prefix k e fs) as Hpre.
    pose proof (prefix_lookup_Some _ _ _ _ Hi Hpre) as Hfin.
    assert (Hlen : (i < length (trace (run_upto k e fs).2))%nat)
      by (eapply lookup_lt_Some; exact Hi).
    assert (Hat : i = 3%nat /\
              trace (run e fs).2 !! 2%nat = Some (Written (output_path m) (table m))).
    { revert Hfin. rewrite run_cases.
      destruct (argv e !! 1%nat) as [a |];
        [destruct (Py.int a) as [m' |];
          [destruct (Pd.storable (table m'));
            [destruct (writable e (output_path m')) |] |] |];
        cbn [snd trace finished previewed echoed];
        destruct i as [| [| [| [| i]]]]; cbn [lookup list_lookup]; intros H;
        first
          [ apply Some_Printed_inj, eq_sym in H;
            first [ now apply hello_not_args in H
                  | now apply hello_not_preview in H
                  | apply hello_inj in H as ->; now split ]
          | discriminate H ]. }
    destruct Hat as [-> Hw]. exists 2%nat. split; [lia |].
    destruct Hpre as [rest Hrest]. rewrite Hrest in Hw.
    rewrite lookup_app_l in Hw by lia. exact Hw.
  - intros Herr k m Hin.
    pose proof (run_upto_prefix k e fs) as [rest Hrest].
    assert (Hfin : Printed (hello m) ∈ trace (run e fs).2)
      by (rewrite Hrest; set_solver).
    revert Herr Hfin. rewrite run_cases.
    destruct (argv e !! 1%nat) as [a |]; [| discriminate].
    destruct (Py.int a) as [m' |]; [| discriminate].
    destruct (Pd.storable (table m')); [| discriminate].
    destruct (writable e (output_path m')); [discriminate |].
    intros _. cbn [previewed trace snd].
    rewrite !elem_of_cons, elem_of_nil. intros [H | [H | []]]; apply Printed_inj in H.
    + now apply hello_not_args in H.
    + now apply hello_not_preview in H.
Qed.

(** C9.  The echo of the argument list, ["args "] followed by the list
    between brackets with each argument as [repr] shows it, is printed
    before the argument is parsed, whatever the arguments are; so a run
    that stops because argument 1 is absent or not convertible to an
    integer has written that one line to standard output, and no file. *)
Theorem echo_precedes_argument_error (e : env) (fs : gmap string Pd.DataFrame) :
  stdout (run_upto 2 e fs).2
    = ["args [" +:+ Py.join ", " (map Py.repr_str (argv e)) +:+ "]"] /\
  ((argv e !! 1%nat = None \/ exists a, argv e !! 1%nat = Some a /\ Py.int a = None) ->
   (run e fs).1 <> None /\
   stdout (run e fs).2
     = ["args [" +:+ Py.join ", " (map Py.repr_str (argv e)) +:+ "]"] /\
   trace (run e fs).2
     = [Printed ("args [" +:+ Py.join ", " (map Py.repr_str (argv e)) +:+ "]")] /\
   files (run e fs).2 = fs).
Proof.
  split; [reflexivity |].
  intros H. rewrite run_cases.
  destruct H as [-> | (a & -> & ->)]; now split_and!.
Qed.

(** C10.  An argument that is the decimal text of [m] with white space
    before or after it, or with a plus sign in front when [m] is not
    negative, is accepted by [int] and parses to [m], provided the text is
    convertible at all, that is has no more digits than [int] takes.  The
    run then gives the same outcome, table, month, files and effects after
    the echo as the run on the canonical text of [m]; the raw argument
    shows only in the echo, and the file name and the month column are
    made from the parsed value. *)
Theorem padded_or_signed_argument
    (m : Z) (l r : string) (plus : bool) (prog : string) (rest : list string)
    (w : string -> bool) (fs : gmap string Pd.DataFrame) :
  Py.all_space l = true -> Py.all_space r = true -> (plus = true -> 0 <= m) ->
  (Py.decimal_digits m <= Py.max_str_digits)%nat ->
  let a := l +:+ (if plus then "+" else "") +:+ Py.decimal m +:+ r in
  let r1 := run {| argv := prog :: a :: rest; writable := w |} fs in
  let r2 := run {| argv := prog :: Py.decimal m :: rest; writable := w |} fs in
  Py.int a = Some m /\
  r1.1 = r2.1 /\
  month r1.2 = month r2.2 /\
  df r1.2 = df r2.2 /\
  files r1.2 = files r2.2 /\
  drop 1 (trace r1.2) = drop 1 (trace r2.2) /\
  trace r1.2 !! 0%nat
    = Some (Printed ("args [" +:+ Py.join ", " (map Py.repr_str (prog :: a :: rest)) +:+ "]")) /\
  (w (output_path m) = true -> - 2 ^ 63 <= m < 2 ^ 64 ->
   r1.1 = None /\ month r1.2 = Some m /\
   files r1.2 !! output_path m = Some (table m)).
Proof.
  intros Hl Hr Hplus Hdigits a r1 r2.
  assert (Hint : Py.int a = Some m).
  { subst a. destruct plus.
    - specialize (Hplus eq_refl).
      assert (Hdec : Py.decimal m = Py.str_nonneg m).
      { unfold Py.decimal. now destruct (Z.ltb_spec m 0); [lia |]. }
      assert (Hlen : String.length (Py.str_nonneg m) = Py.decimal_digits m).
      { unfold Py.decimal_digits. now rewrite Z.abs_eq. }
      rewrite Hdec, PyFacts.app_cons_str, PyFacts.app_nil_l_str.
      unfold Py.int. rewrite PyFacts.digit_count_signed, Hlen by auto.
      destruct (Nat.ltb_spec Py.max_str_digits (Py.decimal_digits m)); [lia |].
      rewrite (PyFacts.convert_signed l r "+" 1 m) by auto. f_equal. lia.
    - rewrite PyFacts.app_nil_l_str. now apply PyFacts.int_decimal_padded. }
  split; [exact Hint |].
  subst r1 r2. rewrite !run_cases. cbn [argv writable lookup list_lookup].
  rewrite Hint, (PyFacts.int_decimal m Hdigits).
  destruct (Pd.storable (table m)) eqn:Hs.
  - destruct (w (output_path m)); split_and!; try reflexivity; try discriminate.
    intros _ _. split_and!; try reflexivity. apply lookup_insert_eq.
  - split_and!; try reflexivity.
    intros _ Hrange%storable_table_iff. congruence.
Qed.

(** * Instances on concrete runs *)

(** Sample conversions, as [int] gives them on these strings. *)
Example int_samples :
  map Py.int [" 7 "; "+7"; "1_0"; "0_7"; "007"; "-0"; "-12"]
    = [Some 7; Some 7; Some 10; Some 7; Some 7; Some 0; Some (-12)] /\
  map Py.int ["_7"; "7_"; "7__7"; "+ 7"; ""; "+"; "-"; "--7"; "7 7"; "0x10"; "abc"; "7.0"]
    = replicate 12 None.
Proof. split; reflexivity. Qed.

Example repr_sample :
  args_line ["pipeline.py"; "7"; "it's"] = "args ['pipeline.py', '7', " +:+
    String Py.dquote ("it's" +:+ String Py.dquote "]").
Proof. reflexivity. Qed.

(** More than 4300 digits are refused, leading zeros counted; white space
    is not counted. *)
Example int_digit_limit :
  Py.int (String.concat "" (repeat "0" 4300)) = Some 0 /\
  Py.int (String.concat "" (repeat "0" 4299) +:+ "7") = Some 7 /\
  Py.int (String.concat "" (repeat "0" 4301)) = None /\
  Py.int (String.concat "" (repeat "0" 4300) +:+ "7") = None /\
  Py.int (String.concat "" (repeat " " 4400) +:+ "-7") = Some (-7).
Proof. vm_compute. repeat split; reflexivity. Qed.

Example run_seven :
  run env_seven ∅ =
    (None,
     {| trace :=
          [Printed "args ['pipeline.py', '7']";
           Printed ("   day  num_passengers  month" +:+ String Py.newline
                  ("0    1               3      7" +:+ String Py.newline
                   "1    2               4      7"));
           Written "output_7.parquet" (table 7);
           Printed "hello month=7"];
        files := {["output_7.parquet" := table 7]};
        month := Some 7;
        df := Some (table 7) |}).
Proof. reflexivity. Qed.

(** A negative month wider than the column name takes the whole width of
    its column, one space after the column before. *)
Example preview_minus_12345 :
  Pd.to_string (table (-12345)) =
    "   day  num_passengers  month" +:+ String Py.newline
      ("0    1               3 -12345" +:+ String Py.newline
       "1    2               4 -12345").
Proof. reflexivity. Qed.

Example preview_empty :
  Pd.to_string (Pd.head 0 base_table) =
    "Empty DataFrame" +:+ String Py.newline
      ("Columns: [day, num_passengers]" +:+ String Py.newline "Index: []").
Proof. reflexivity. Qed.

(** At month [2 ^ 64], in a directory that can be written, the run stops
    with [OverflowError] when the table is written: no file is made and
    the exit code is 1. *)
Lemma output_file_fails_at_two_pow_64 :
  Py.decimal (2 ^ 64) = "18446744073709551616" /\
  (fun _ : string => true) ("output_" +:+ Py.decimal (2 ^ 64) +:+ ".parquet") = true /\
  (run {| argv := "pipeline.py" :: Py.decimal (2 ^ 64) :: []; writable := fun _ => true |} ∅).1
    = Some OverflowError /\
  exit_code
    (run {| argv := "pipeline.py" :: Py.decimal (2 ^ 64) :: []; writable := fun _ => true |} ∅).1
    = 1 /\
  files
    (run {| argv := "pipeline.py" :: Py.decimal (2 ^ 64) :: []; writable := fun _ => true |} ∅).2
    = ∅.
Proof. vm_compute. repeat split; reflexivity. Qed.

Lemma output_file_for_every_month_witness :
  let r := run {| argv := ["pipeline.py"; "-1"]; writable := fun _ => true |} ∅ in
  r.1 = None /\
  exit_code r.1 = 0 /\
  exists d,
    files r.2 = <["output_-1.parquet" := d]> ∅ /\
    files r.2 !! "output_-1.parquet" = Some d /\
    Pd.nrows d = 2%nat /\
    Pd.columns d = [("day", [1; 2]); ("num_passengers", [3; 4]); ("month", [-1; -1])] /\
    Pd.rows d = [[1; 3; -1]; [2; 4; -1]].
Proof.
  apply (output_file_for_every_month (-1) "pipeline.py" [] (fun _ => true) ∅).
  - split; [discriminate | reflexivity].
  - reflexivity.
Defined.

Lemma stdout_of_successful_run_witness :
  stdout (run env_seven ∅).2 =
    ["args ['pipeline.py', '7']";
     "   day  num_passengers  month" +:+ String Py.newline
       ("0    1               3      7" +:+ String Py.newline
        "1    2               4      7");
     "hello month=7"].
Proof.
  destruct (stdout_of_successful_run env_seven ∅ (run env_seven ∅).2 eq_refl)
    as (a & m & Ha & Hm & _ & _ & Htext & Hout).
  injection Ha as <-. injection Hm as <-.
  rewrite Hout, Htext. reflexivity.
Defined.

Lemma argument_error_aborts_witness :
  exists x st,
    run env_abc ∅ = (Some x, st) /\
    (argv env_abc !! 1%nat = None -> x = IndexError) /\
    (forall a, argv env_abc !! 1%nat = Some a -> x = ValueError) /\
    exit_code (Some x) <> 0 /\
    files st = ∅ /\
    (forall p d, Written p d ∉ trace st).
Proof.
  apply (argument_error_aborts env_abc ∅).
  right. exists "abc". split; reflexivity.
Defined.

Lemma columns_equal_length_always_witness :
  df (run_upto 5 env_seven ∅).2 = Some (table 7) /\
  Pd.aligned (table 7) /\ Pd.nrows (table 7) = 2%nat /\
  Forall (fun c => length c.2 = 2%nat) (Pd.columns (table 7)).
Proof.
  split; [reflexivity |].
  apply (proj1 (columns_equal_length_always 5 env_seven ∅) (table 7)).
  reflexivity.
Defined.

Lemma only_argument_one_is_read_witness :
  let r1 := run {| argv := ["pipeline.py"; "7"]; writable := fun _ => true |} ∅ in
  let r2 := run {| argv := ["other.py"; "7"; "8"; "x"]; writable := fun _ => true |} ∅ in
  r1.1 = r2.1 /\
  month r1.2 = month r2.2 /\
  df r1.2 = df r2.2 /\
  files r1.2 = files r2.2 /\
  drop 1 (trace r1.2) = drop 1 (trace r2.2).
Proof.
  apply (only_argument_one_is_read
           ["pipeline.py"; "7"] ["other.py"; "7"; "8"; "x"] (fun _ => true) ∅).
  reflexivity.
Defined.

Lemma month_column_added_once_witness :
  exists m d0 d1,
    month (run env_seven ∅).2 = Some m /\
    d1 = Pd.setitem d0 "month" m /\
    d0 <> d1 /\
    df_history 9 env_seven ∅ =
      [None; None; None; None; Some d0; Some d1; Some d1; Some d1; Some d1] /\
    df (run env_seven ∅).2 = Some d1 /\
    Pd.column d0 "day" = Some [1; 2] /\
    Pd.column d0 "num_passengers" = Some [3; 4] /\
    Pd.column d1 "day" = Some [1; 2] /\
    Pd.column d1 "num_passengers" = Some [3; 4] /\
    Pd.column d1 "month" = Some [m; m] /\
    map fst (Pd.columns d0) = ["day"; "num_passengers"] /\
    map fst (Pd.columns d1) = map fst (Pd.columns d0) ++ ["month"] /\
    Pd.nrows d0 = 2%nat /\
    Pd.nrows d1 = Pd.nrows d0.
Proof.
  apply (month_column_added_once env_seven ∅ (run env_seven ∅).2).
  reflexivity.
Defined.

Lemma write_precedes_confirmation_witness :
  (exists j, (j < 3)%nat /\
     trace (run_upto 8 env_seven ∅).2 !! j = Some (Written (output_path 7) (table 7))) /\
  (forall k m, Printed (hello m) ∉ trace (run_upto k env_readonly ∅).2).
Proof.
  split.
  - apply (proj1 (write_precedes_confirmation env_seven ∅) 8%nat 7 3%nat).
    reflexivity.
  - apply (proj2 (write_precedes_confirmation env_readonly ∅)).
    reflexivity.
Defined.

Lemma echo_precedes_argument_error_witness :
  (run env_noarg ∅).1 <> None /\
  stdout (run env_noarg ∅).2 = ["args ['pipeline.py']"] /\
  trace (run env_noarg ∅).2 = [Printed "args ['pipeline.py']"] /\
  files (run env_noarg ∅).2 = ∅.
Proof.
  apply (proj2 (echo_precedes_argument_error env_noarg ∅)).
  left. reflexivity.
Defined.

Lemma padded_or_signed_argument_witness :
  let r1 := run {| argv := ["pipeline.py"; " +7 "]; writable := fun _ => true |} ∅ in
  let r2 := run {| argv := ["pipeline.py"; "7"]; writable := fun _ => true |} ∅ in
  Py.int " +7 " = Some 7 /\
  r1.1 = r2.1 /\
  month r1.2 = month r2.2 /\
  df r1.2 = df r2.2 /\
  files r1.2 = files r2.2 /\
  drop 1 (trace r1.2) = drop 1 (trace r2.2) /\
  trace r1.2 !! 0%nat = Some (Printed "args ['pipeline.py', ' +7 ']") /\
  (true = true -> - 2 ^ 63 <= 7 < 2 ^ 64 ->
   r1.1 = None /\ month r1.2 = Some 7 /\
   files r1.2 !! "output_7.parquet" = Some (table 7)).
Proof.
  apply (padded_or_signed_argument 7 " " " " true "pipeline.py" [] (fun _ => true) ∅).
  - reflexivity.
  - reflexivity.
  - intros _. discriminate.
  - apply Nat.leb_le. reflexivity.
Defined.

(** * Further properties *)

(** ** Texts *)

Lemma app_inv_tail_str (t : string) : forall s s' : string,
  s +:+ t = s' +:+ t -> s = s'.
Proof.
  induction s as [| c s IH]; intros [| c' s'];
    rewrite ?PyFacts.app_nil_l_str, ?PyFacts.app_cons_str; intros H.
  - reflexivity.
  - apply (f_equal String.length) in H. simpl in H.
    rewrite PyFacts.length_app_str in H. lia.
  - apply (f_equal String.length) in H. simpl in H.
    rewrite PyFacts.length_app_str in H. lia.
  - injection H as -> H. f_equal. now apply IH.
Qed.

(** The conversion, with the sign test written as a comparison. *)
Lemma convert_unfold s :
  Py.convert s =
  let go (sign : Z) (s2 : string) :=
    match Py.scan_digits s2 Py.PStart 0 with
    | Some (v, rest) =>
        match Py.lstrip rest with
        | EmptyString => Some (sign * v)
        | _ => None
        end
    | None => None
    end in
  match Py.lstrip s with
  | String c r =>
      if Ascii.eqb c "+" then go 1 r
      else if Ascii.eqb c "-" then go (-1) r
      else go 1 (String c r)
  | EmptyString => go 1 EmptyString
  end.
Proof.
  unfold Py.convert. rewrite PyFacts.split_sign_spec.
  destruct (Py.lstrip s) as [| c r]; [reflexivity |].
  destruct (Ascii.eqb c "+"); [reflexivity |].
  destruct (Ascii.eqb c "-"); reflexivity.
Qed.

Lemma all_chars_lstrip P s :
  (forall c, Py.is_space c = true -> P c = true) ->
  all_chars P (Py.lstrip s) = true -> all_chars P s = true.
Proof.
  intros HP. induction s as [| c s IH]; simpl; [reflexivity |].
  destruct (Py.is_space c) eqn:Hc; [| now simpl].
  intros H. now rewrite (HP c Hc), IH.
Qed.

Lemma lstrip_nil_all_space s : Py.lstrip s = "" -> Py.all_space s = true.
Proof.
  induction s as [| c s IH]; simpl; [reflexivity |].
  destruct (Py.is_space c); [exact IH | discriminate].
Qed.

Lemma all_space_alphabet s : Py.all_space s = true -> all_chars int_alphabet s = true.
Proof.
  induction s as [| c s IH]; simpl; [reflexivity |].
  intros [Hc Hs]%andb_prop. unfold int_alphabet at 1. now rewrite Hc, IH.
Qed.

(** What the scanner consumes is digits and underscores. *)
Lemma all_chars_scan s : forall p acc v rest,
  Py.scan_digits s p acc = Some (v, rest) ->
  all_chars int_alphabet rest = true -> all_chars int_alphabet s = true.
Proof.
  induction s as [| c s IH]; intros p acc v rest; cbn [Py.scan_digits].
  - destruct p; intros [= _ <-]; auto.
  - destruct (Py.digit_value c) as [dv |] eqn:Hd.
    + intros H Hrest. cbn [all_chars]. rewrite (IH _ _ _ _ H Hrest).
      unfold int_alphabet. rewrite Hd. now rewrite orb_true_r.
    + destruct (Ascii.eqb c "_") eqn:Hu.
      * destruct p; try discriminate. intros H Hrest. cbn [all_chars].
        rewrite (IH _ _ _ _ H Hrest). unfold int_alphabet. rewrite Hu.
        now rewrite !orb_true_r.
      * destruct p; intros [= _ <-]; auto.
Qed.

(** X8.  A text that [int] accepts is made only of white space, digits,
    signs and underscores; so when argument 1 holds any other character,
    the run stops with [ValueError] after the echo. *)
Theorem foreign_character_rejected (e : env) (fs : gmap string Pd.DataFrame) (a : string) :
  argv e !! 1%nat = Some a ->
  all_chars int_alphabet a = false ->
  Py.int a = None /\
  run e fs = (Some ValueError, echoed e fs).
Proof.
  intros Ha Hbad.
  assert (Hint : Py.int a = None).
  { destruct (Py.int a) as [m |] eqn:Hm; [exfalso | reflexivity].
    apply PyFacts.int_convert in Hm.
    assert (Hgo : forall sign s2,
              match Py.scan_digits s2 Py.PStart 0 with
              | Some (v, rest) =>
                  match Py.lstrip rest with
                  | EmptyString => Some (sign * v)
                  | _ => None
                  end
              | None => None
              end = Some m -> all_chars int_alphabet s2 = true).
    { intros sign s2. destruct (Py.scan_digits s2 Py.PStart 0) as [[v rest] |] eqn:Hs;
        [| discriminate].
      destruct (Py.lstrip rest) eqn:Hr; [| discriminate]. intros _.
      eapply all_chars_scan; [exact Hs |].
      now apply all_space_alphabet, lstrip_nil_all_space. }
    assert (Hall : all_chars int_alphabet a = true); [| congruence].
    apply all_chars_lstrip.
    { intros c Hc. unfold int_alphabet. now rewrite Hc. }
    rewrite convert_unfold in Hm. cbv zeta in Hm.
    destruct (Py.lstrip a) as [| c r]; [now apply Hgo in Hm |].
    destruct (Ascii.eqb c "+") eqn:Hp.
    { cbn [all_chars]. rewrite (Hgo _ _ Hm). unfold int_alphabet. rewrite Hp.
      now rewrite !orb_true_r. }
    destruct (Ascii.eqb c "-") eqn:Hn.
    { cbn [all_chars]. rewrite (Hgo _ _ Hm). unfold int_alphabet. rewrite Hn.
      now rewrite !orb_true_r. }
    now apply Hgo in Hm. }
  split; [exact Hint |]. now rewrite run_cases, Ha, Hint.
Qed.

(** X6.  Round trip within the limit of digits: an integer of at most
    4300 digits is formatted by [str], as the f-strings of lines 13 and 15
    do, and [int], as on line 7, converts that text back to the integer;
    an integer of more digits is refused by [str], and its decimal text is
    refused by [int]. *)
Theorem int_of_str_round_trip (m : Z) :
  ((Py.decimal_digits m <= Py.max_str_digits)%nat ->
   Py.str m = Some (Py.decimal m) /\ Py.int (Py.decimal m) = Some m) /\
  ((Py.max_str_digits < Py.decimal_digits m)%nat ->
   Py.str m = None /\ Py.int (Py.decimal m) = None).
Proof.
  split; intros Hm.
  - split; [| now apply PyFacts.int_decimal].
    unfold Py.str.
    destruct (Nat.ltb_spec Py.max_str_digits (Py.decimal_digits m)); [lia | reflexivity].
  - pose proof (PyFacts.digit_count_decimal_padded "" "" m eq_refl eq_refl) as Hcount.
    rewrite PyFacts.app_nil_l_str, PyFacts.app_nil_r_str in Hcount.
    unfold Py.str, Py.int. rewrite Hcount.
    destruct (Nat.ltb_spec Py.max_str_digits (Py.decimal_digits m)); [now split | lia].
Qed.

Lemma output_path_inj_aux (m m' : Z) : output_path m = output_path m' -> m = m'.
Proof.
  unfold output_path. intros H%String.app_inj%app_inv_tail_str. now apply PyFacts.decimal_inj.
Qed.

(** X4.  Different months have different output paths, and different
    confirmation lines. *)
Theorem output_path_inj (m m' : Z) :
  m <> m' -> output_path m <> output_path m' /\ hello m <> hello m'.
Proof.
  intros Hne. split; intros H; apply Hne.
  - now apply output_path_inj_aux.
  - now apply hello_inj.
Qed.

(** ** Frames *)

(** X10.  After [d[k] = x], reading [d[k]] gives [x] once per row, whether
    the column existed before or not. *)
Theorem column_of_setitem (d : Pd.DataFrame) (k : string) (x : Z) :
  Pd.column (Pd.setitem d k x) k = Some (replicate (Pd.nrows d) x).
Proof.
  unfold Pd.column, Pd.setitem. cbn [Pd.columns].
  generalize (replicate (Pd.nrows d) x). intros v.
  induction (Pd.columns d) as [| c cs IH]; cbn [Pd.set_column find].
  - cbn [fst]. now rewrite String.eqb_refl.
  - destruct (String.eqb k c.1) eqn:Hk; cbn [find fst].
    + now rewrite String.eqb_refl.
    + rewrite Hk. exact IH.
Qed.

(** X11.  [head(n)] of an aligned frame with at most [n] rows is the frame
    itself. *)
Theorem head_of_short_frame (n : nat) (d : Pd.DataFrame) :
  Pd.aligned d -> (Pd.nrows d <= n)%nat -> Pd.head n d = d.
Proof.
  destruct d as [r cs]. unfold Pd.aligned, Pd.head. cbn [Pd.nrows Pd.columns].
  intros Hal Hn. f_equal; [lia |].
  induction Hal as [| c cs Hc Hcs IH]; cbn [map]; [reflexivity |].
  rewrite IH. f_equal. destruct c as [name v]. cbn [fst snd] in *.
  now rewrite take_ge by lia.
Qed.

(** X12.  Assigning a column that exists keeps the names of the columns
    and their order; assigning a new one adds its name at the end. *)
Theorem names_of_setitem (d : Pd.DataFrame) (k : string) (x : Z) :
  names (Pd.setitem d k x) = if decide (k ∈ names d) then names d else names d ++ [k].
Proof.
  unfold names, Pd.setitem. cbn [Pd.columns].
  generalize (replicate (Pd.nrows d) x). intros v.
  induction (Pd.columns d) as [| c cs IH]; cbn [Pd.set_column map].
  - rewrite decide_False by apply not_elem_of_nil. reflexivity.
  - destruct (String.eqb_spec k c.1) as [-> | Hne]; cbn [map fst].
    + rewrite decide_True by left. reflexivity.
    + rewrite IH. destruct (decide (k ∈ map fst cs)) as [Hin | Hnin].
      * rewrite decide_True by now right. reflexivity.
      * rewrite decide_False; [reflexivity |].
        intros [Heq | Hin]%elem_of_cons; [now apply Hne | now apply Hnin].
Qed.

(** ** Runs *)

(** X1.  When argument 1 is an integer that fits 64 bits but the output
    path cannot be written, the run ends with [OSError] and exit code 1
    after two texts, the echo and the preview of the table; the variables
    are bound, and the directory is as it was. *)
Theorem write_failure_run (e : env) (fs : gmap string Pd.DataFrame) (a : string) (m : Z) :
  argv e !! 1%nat = Some a -> Py.int a = Some m ->
  - 2 ^ 63 <= m < 2 ^ 64 ->
  writable e (output_path m) = false ->
  (run e fs).1 = Some OSError /\
  exit_code (run e fs).1 = 1 /\
  stdout (run e fs).2 =
    ["args [" +:+ Py.join ", " (map Py.repr_str (argv e)) +:+ "]"; table_text m] /\
  month (run e fs).2 = Some m /\
  df (run e fs).2 = Some (table m) /\
  files (run e fs).2 = fs.
Proof.
  intros Ha Hm Hr Hw. rewrite run_cases, Ha, Hm, Hw.
  rewrite (proj2 (storable_table_iff m) Hr).
  split_and!; try reflexivity.
  cbn [snd previewed stdout trace omap]. now rewrite (to_string_table m Hr).
Qed.

(** X2.  The exit code is zero exactly when argument 1 exists, converts to
    an integer that fits 64 bits, and the output path of that integer can
    be written; and no run ends with [NameError]: both variables are bound
    before use. *)
Theorem exit_code_zero_iff (e : env) (fs : gmap string Pd.DataFrame) :
  (exit_code (run e fs).1 = 0 <->
   exists a m, argv e !! 1%nat = Some a /\ Py.int a = Some m /\
               - 2 ^ 63 <= m < 2 ^ 64 /\
               writable e (output_path m) = true) /\
  (run e fs).1 <> Some NameError.
Proof.
  rewrite run_cases.
  destruct (argv e !! 1%nat) as [a |] eqn:Ha.
  2: { split; [| discriminate]. split; [discriminate |].
       intros (a & m & [=] & _). }
  destruct (Py.int a) as [m |] eqn:Hm.
  2: { split; [| discriminate]. split; [discriminate |].
       intros (a' & m & [= <-] & Hm' & _). congruence. }
  destruct (Pd.storable (table m)) eqn:Hs.
  - apply storable_table_iff in Hs.
    destruct (writable e (output_path m)) eqn:Hw.
    + split; [| discriminate]. split; [| reflexivity]. intros _. now exists a, m.
    + split; [| discriminate]. split; [discriminate |].
      intros (a' & m' & [= <-] & Hm' & _ & Hw'). congruence.
  - split; [| discriminate]. split; [discriminate |].
    intros (a' & m' & [= <-] & Hm' & Hr & _).
    assert (m' = m) as -> by congruence.
    apply storable_table_iff in Hr. congruence.
Qed.

(** X3.  Whatever its outcome, a run leaves every path but the output
    path of the parsed month as it found it. *)
Theorem other_files_untouched (e : env) (fs : gmap string Pd.DataFrame) (p : string) :
  (forall m, month (run e fs).2 = Some m -> p <> output_path m) ->
  files (run e fs).2 !! p = fs !! p.
Proof.
  rewrite run_cases.
  destruct (argv e !! 1%nat) as [a |]; [| reflexivity].
  destruct (Py.int a) as [m |]; [| reflexivity].
  destruct (Pd.storable (table m)); [| reflexivity].
  destruct (writable e (output_path m)); [| reflexivity].
  cbn [snd finished month files]. intros Hp.
  apply lookup_insert_ne. intros Heq. now apply (Hp m).
Qed.

(** X5.  Two successful runs for different months, one after the other in
    the same directory, leave both output files, each with its table. *)
Theorem runs_for_two_months (e1 e2 : env) (fs : gmap string Pd.DataFrame)
    (st1 st2 : state) (m1 m2 : Z) :
  run e1 fs = (None, st1) -> run e2 (files st1) = (None, st2) ->
  month st1 = Some m1 -> month st2 = Some m2 -> m1 <> m2 ->
  files st2 !! output_path m1 = Some (table m1) /\
  files st2 !! output_path m2 = Some (table m2).
Proof.
  intros (a1 & n1 & _ & _ & _ & ->)%run_finished_inv
         (a2 & n2 & _ & _ & _ & ->)%run_finished_inv.
  cbn [finished month files]. intros [= ->] [= ->] Hne. split.
  - rewrite lookup_insert_ne; [apply lookup_insert_eq |].
    intros Heq%output_path_inj_aux. congruence.
  - apply lookup_insert_eq.
Qed.

(** X7.  Two runs whose arguments at position 1 convert to the same
    integer, whatever their texts, give the same outcome, month, table and
    files, and the same effects after the echo. *)
Theorem same_value_same_run
    (a1 a2 : list string) (s1 s2 : string) (w : string -> bool)
    (fs : gmap string Pd.DataFrame) :
  a1 !! 1%nat = Some s1 -> a2 !! 1%nat = Some s2 -> Py.int s1 = Py.int s2 ->
  (run {| argv := a1; writable := w |} fs).1 = (run {| argv := a2; writable := w |} fs).1 /\
  month (run {| argv := a1; writable := w |} fs).2
    = month (run {| argv := a2; writable := w |} fs).2 /\
  df (run {| argv := a1; writable := w |} fs).2
    = df (run {| argv := a2; writable := w |} fs).2 /\
  files (run {| argv := a1; writable := w |} fs).2
    = files (run {| argv := a2; writable := w |} fs).2 /\
  drop 1 (trace (run {| argv := a1; writable := w |} fs).2)
    = drop 1 (trace (run {| argv := a2; writable := w |} fs).2).
Proof.
  intros H1 H2 Hint. rewrite !run_cases. cbn [argv writable].
  rewrite H1, H2, Hint.
  destruct (Py.int s2) as [m |]; [| now split_and!].
  destruct (Pd.storable (table m)); [| now split_and!].
  destruct (w (output_path m)); now split_and!.
Qed.

Lemma program_keeps_files fs : Forall (preserves (keeps_files fs)) program.
Proof.
  apply Forall_program; intros e st st' Hkeep H;
    cbv [stmt_argv stmt_print_args stmt_month stmt_df stmt_setitem stmt_print_head
         stmt_to_parquet stmt_print_hello mbind result_bind or_raise print
         to_parquet] in H;
    stmt_cases; try exact Hkeep.
  intros p Hp. cbn [files]. rewrite lookup_insert.
  case_decide; [eauto | now apply Hkeep].
Qed.

(** X13.  The script never removes a file: at every point of every run,
    each path that was in the directory at the start is still there. *)
Theorem no_file_removed (k : nat) (e : env) (fs : gmap string Pd.DataFrame) (p : string) :
  is_Some (fs !! p) -> is_Some (files (run_upto k e fs).2 !! p).
Proof.
  revert p. change (keeps_files fs (run_upto k e fs).2).
  unfold run_upto. apply (exec_preserves (keeps_files fs)).
  - apply Forall_take, program_keeps_files.
  - intros p Hp. exact Hp.
Qed.


(** ** Instances of the further properties *)

Lemma foreign_character_rejected_witness :
  Py.int "abc" = None /\ run env_abc ∅ = (Some ValueError, echoed env_abc ∅).
Proof.
  apply (foreign_character_rejected env_abc ∅ "abc"); reflexivity.
Defined.

Lemma int_of_str_round_trip_witness :
  Py.str 7 = Some "7" /\ Py.int "7" = Some 7.
Proof.
  apply (proj1 (int_of_str_round_trip 7)). apply Nat.leb_le. reflexivity.
Defined.

Lemma output_path_inj_witness :
  output_path 7 <> output_path 8 /\ hello 7 <> hello 8.
Proof. apply (output_path_inj 7 8). discriminate. Defined.

Lemma head_of_short_frame_witness : Pd.head 5 (table 7) = table 7.
Proof.
  apply (head_of_short_frame 5 (table 7)).
  - repeat constructor.
  - repeat constructor.
Defined.

Lemma write_failure_run_witness :
  (run env_readonly ∅).1 = Some OSError /\
  exit_code (run env_readonly ∅).1 = 1 /\
  stdout (run env_readonly ∅).2
    = ["args ['pipeline.py', '7']";
       "   day  num_passengers  month" +:+ String Py.newline
         ("0    1               3      7" +:+ String Py.newline
          "1    2               4      7")] /\
  month (run env_readonly ∅).2 = Some 7 /\
  df (run env_readonly ∅).2 = Some (table 7) /\
  files (run env_readonly ∅).2 = ∅.
Proof.
  apply (write_failure_run env_readonly ∅ "7" 7); try reflexivity.
  split; [discriminate | reflexivity].
Defined.

Lemma exit_code_zero_iff_witness : exit_code (run env_seven ∅).1 = 0.
Proof.
  apply (proj1 (exit_code_zero_iff env_seven ∅)).
  exists "7", 7. split_and!; try reflexivity. discriminate.
Defined.

Lemma other_files_untouched_witness :
  files (run env_seven {["notes.txt" := base_table]}).2 !! "notes.txt"
    = ({["notes.txt" := base_table]} : gmap string Pd.DataFrame) !! "notes.txt".
Proof.
  apply (other_files_untouched env_seven {["notes.txt" := base_table]} "notes.txt").
  intros m [= <-]. discriminate.
Defined.

Lemma runs_for_two_months_witness :
  files (run env_eight (files (run env_seven ∅).2)).2 !! output_path 7 = Some (table 7) /\
  files (run env_eight (files (run env_seven ∅).2)).2 !! output_path 8 = Some (table 8).
Proof.
  apply (runs_for_two_months env_seven env_eight ∅
           (run env_seven ∅).2 (run env_eight (files (run env_seven ∅).2)).2 7 8);
    try reflexivity.
  discriminate.
Defined.

Lemma same_value_same_run_witness :
  (run {| argv := ["pipeline.py"; "7"]; writable := fun _ => true |} ∅).1
    = (run {| argv := ["pipeline.py"; "0_7"]; writable := fun _ => true |} ∅).1 /\
  month (run {| argv := ["pipeline.py"; "7"]; writable := fun _ => true |} ∅).2
    = month (run {| argv := ["pipeline.py"; "0_7"]; writable := fun _ => true |} ∅).2 /\
  df (run {| argv := ["pipeline.py"; "7"]; writable := fun _ => true |} ∅).2
    = df (run {| argv := ["pipeline.py"; "0_7"]; writable := fun _ => true |} ∅).2 /\
  files (run {| argv := ["pipeline.py"; "7"]; writable := fun _ => true |} ∅).2
    = files (run {| argv := ["pipeline.py"; "0_7"]; writable := fun _ => true |} ∅).2 /\
  drop 1 (trace (run {| argv := ["pipeline.py"; "7"]; writable := fun _ => true |} ∅).2)
    = drop 1 (trace (run {| argv := ["pipeline.py"; "0_7"]; writable := fun _ => true |} ∅).2).
Proof.
  apply (same_value_same_run ["pipeline.py"; "7"] ["pipeline.py"; "0_7"] "7" "0_7"
           (fun _ => true) ∅); reflexivity.
Defined.

Lemma no_file_removed_witness :
  is_Some (files (run_upto 8 env_seven {["notes.txt" := base_table]}).2 !! "notes.txt").
Proof.
  apply (no_file_removed 8 env_seven {["notes.txt" := base_table]} "notes.txt").
  exists base_table. reflexivity.
Defined.

